(** * colorcss: a shallow embedding of ExportHtml's CSS colour library

    The development follows the package [lib/colorcss]: [util.py],
    [base.py], [rgb.py], [hsl.py], [hwb.py] and [__init__.py].

    Modelling conventions.
    - A Python float is modelled in two layers.  The exact layer (the
      definitions outside [F64]) reads it as a rational ([Q]), Python's
      [==], [<] and [>] becoming [Qeq_bool] and [Qlt_le_dec]; it carries
      the statements about parsing, serialising, errors and the shape of
      the arithmetic, and says nothing of rounding, infinities or NaN.
      The binary64 layer (module [F64]) reads it as a primitive float
      ([PrimFloat]), with rounding, signed zeros, infinities and NaN, and
      Python's [min] and [max] as they treat a NaN; it carries the
      statements whose truth depends on them: the range of the channels,
      [clamp], hue rotation, [apply_alpha] on an opaque colour and the
      shares of [_distribute_overage].
    - What the package imports from the standard library and computes
      with in binary64 ([float] of a string, [colorsys], [math.degrees],
      the operator [^]) is a field of [F64.host]: a statement about [F64]
      holds whatever these compute.
    - A Python exception is a value of [Py.exn]; code that may raise lives
      in the error monad [Py.result].  A [while] loop takes fuel, and
      [Py.OutOfFuel] is the outcome of a loop that outlives it.
    - A name that a module never binds raises [NameError] when it is looked
      up: [Py.global] performs the lookup against the list of names the
      module binds.
    - An object of one of the three colour classes is a record holding its
      class and the four slots [_c1], [_c2], [_c3], [_c0] of [_ColorBase];
      in-place mutation becomes returning the updated record. *)

From Stdlib Require Import ZArith QArith Qround Qabs Lqa Lia.
From Stdlib Require Import List Bool Ascii String.
From Stdlib Require Import Floats.
Import ListNotations.

Set Implicit Arguments.

(** ** Python exceptions and the error monad *)

Module Py.

Inductive exn : Type :=
| NameError (name : string)
| TypeError
| ValueError
| IndexError
| AttributeError (name : string)
| AssertionError
| ZeroDivisionError
| InvalidOperation.

(** The outcome of running a piece of code: it returns, it raises, or the
    fuel handed to one of its [while] loops ran out before the loop did. *)
Inductive result (A : Type) : Type :=
| Ok (a : A)
| Raise (e : exn)
| OutOfFuel.

Arguments Ok {A} a.
Arguments Raise {A} e.
Arguments OutOfFuel {A}.

Definition bind {A B} (m : result A) (k : A -> result B) : result B :=
  match m with
  | Ok a => k a
  | Raise e => Raise e
  | OutOfFuel => OutOfFuel
  end.

Definition returns {A} (m : result A) : bool :=
  match m with Ok _ => true | _ => false end.

(** [global ns name v]: evaluate the global [name] inside a module whose
    bound names are [ns]; [v] is the object the name denotes in the module
    that does define it. *)
Definition global {A} (ns : list string) (name : string) (v : A) : result A :=
  if existsb (String.eqb name) ns then Ok v else Raise (NameError name).

End Py.

Import Py.

Notation "x <- m ;; k" := (Py.bind m (fun x => k))
  (at level 61, m at next level, right associativity).
Notation "' pat <- m ;; k" := (Py.bind m (fun x => match x with pat => k end))
  (at level 61, pat pattern, m at next level, right associativity).

Local Open Scope Q_scope.

(** ** Strings: the [str] methods the package uses *)

Module Str.

Definition chars : string -> list ascii := list_ascii_of_string.
Definition of_chars : list ascii -> string := string_of_list_ascii.

(** [str.isspace] on ASCII: TAB..CR, FS..US and the blank. *)
Definition is_space (c : ascii) : bool :=
  let n := nat_of_ascii c in
  ((9 <=? n) && (n <=? 13) || (28 <=? n) && (n <=? 31) || (n =? 32))%nat.

Definition is_digit (c : ascii) : bool :=
  let n := nat_of_ascii c in ((48 <=? n) && (n <=? 57))%nat.

Definition lower (c : ascii) : ascii :=
  let n := nat_of_ascii c in
  if ((65 <=? n) && (n <=? 90))%nat then ascii_of_nat (n + 32) else c.

Definition startswith (s p : string) : bool := String.prefix p s.

Definition endswith (s p : string) : bool :=
  let n := String.length s in
  let k := String.length p in
  ((k <=? n)%nat && String.eqb (String.substring (n - k) k s) p)%bool.

(** [s[i:]], [s[:-k]] and [s[i:j]] for indices inside the usual range. *)
Definition from (i : nat) (s : string) : string :=
  String.substring i (String.length s - i) s.

Definition drop_last (k : nat) (s : string) : string :=
  String.substring 0 (String.length s - k) s.

Definition slice (i j : nat) (s : string) : string :=
  String.substring i (Nat.min j (String.length s) - i) s.

Fixpoint lstrip_by (p : ascii -> bool) (l : list ascii) : list ascii :=
  match l with
  | c :: l' => if p c then lstrip_by p l' else l
  | [] => []
  end.

Definition strip_by (p : ascii -> bool) (s : string) : string :=
  of_chars (rev (lstrip_by p (rev (lstrip_by p (chars s))))).

(** [s.strip()] and [s.strip(cs)]. *)
Definition strip (s : string) : string := strip_by is_space s.

Definition strip_chars (cs : string) (s : string) : string :=
  strip_by (fun c => existsb (Ascii.eqb c) (chars cs)) s.

(** [c * 2] for a string [c]. *)
Definition twice (s : string) : string := (s ++ s)%string.

(** [s[i]]: one character, [IndexError] past the end. *)
Definition index (i : nat) (s : string) : result string :=
  match String.get i s with
  | Some c => Ok (String c EmptyString)
  | None => Raise IndexError
  end.

End Str.

(** ** Regular expressions: the part of [re] the package uses

    A pattern is a term of [re]; [match_] decides it with Brzozowski
    derivatives, so it answers whether Python's backtracking search finds
    a match at all.  The flag [(?i)] is built into the character tests
    ([lit], [range]) and [(?x)] only changes how a pattern is written. *)

Module Re.

Inductive re : Type :=
| Never
| Eps
| Class (p : ascii -> bool)
| Cat (r s : re)
| Alt (r s : re)
| Star (r : re).

Fixpoint nullable (r : re) : bool :=
  match r with
  | Never => false
  | Eps => true
  | Class _ => false
  | Cat r s => nullable r && nullable s
  | Alt r s => nullable r || nullable s
  | Star _ => true
  end.

Definition cat (r s : re) : re :=
  match r, s with
  | Never, _ => Never
  | _, Never => Never
  | Eps, _ => s
  | _, _ => Cat r s
  end.

Definition alt (r s : re) : re :=
  match r, s with
  | Never, _ => s
  | _, Never => r
  | _, _ => Alt r s
  end.

Fixpoint deriv (c : ascii) (r : re) : re :=
  match r with
  | Never => Never
  | Eps => Never
  | Class p => if p c then Eps else Never
  | Cat r s =>
      if nullable r then alt (cat (deriv c r) s) (deriv c s)
      else cat (deriv c r) s
  | Alt r s => alt (deriv c r) (deriv c s)
  | Star r' => cat (deriv c r') (Star r')
  end.

(** The whole of [s] is in the language of [r]. *)
Fixpoint full (r : re) (s : list ascii) : bool :=
  match s with
  | [] => nullable r
  | c :: s' => full (deriv c r) s'
  end.

(** Some prefix of [s] is in the language of [r]. *)
Fixpoint prefix (r : re) (s : list ascii) : bool :=
  nullable r ||
  match s with
  | [] => false
  | c :: s' => prefix (deriv c r) s'
  end.

(** Pattern syntax. *)
Definition opt (r : re) : re := Alt r Eps.
Definition plus (r : re) : re := Cat r (Star r).

Fixpoint rep (n : nat) (r : re) : re :=
  match n with
  | O => Eps
  | S n' => Cat r (rep n' r)
  end.

Definition any_of (cs : string) : re :=
  Class (fun c => existsb (Ascii.eqb c) (Str.chars cs)).

(** Under [(?i)]: a literal character, a literal word, a range. *)
Definition lit (a : ascii) : re :=
  Class (fun c => Ascii.eqb (Str.lower c) (Str.lower a)).

Fixpoint word (w : string) : re :=
  match w with
  | EmptyString => Eps
  | String a w' => Cat (lit a) (word w')
  end.

Definition range (lo hi : ascii) : ascii -> bool :=
  fun c =>
    let n := nat_of_ascii (Str.lower c) in
    ((nat_of_ascii lo <=? n) && (n <=? nat_of_ascii hi))%nat.

Definition space_class : re := Class Str.is_space.
Definition digit_class : re := Class Str.is_digit.

(** [$] without [re.M]: the end of the string, or just before a newline
    that ends the string. *)
Definition dollar : re := opt (Class (Ascii.eqb "010"%char)).

(** [re.compile("^R$").match(s) is not None]. *)
Definition match_anchored (r : re) (s : string) : bool :=
  full (Cat r dollar) (Str.chars s).

(** A match object, as far as [group] needs it: the captures of the
    groups the pattern has, in order. *)
Record match_obj : Type := { groups : list (option string) }.

(** [m.group(n)] for [n >= 1]: [IndexError] when the pattern has fewer
    than [n] groups; [None] for a group that took no part in the match. *)
Definition group (m : match_obj) (n : nat) : result (option string) :=
  match nth_error (groups m) (n - 1) with
  | Some g => Ok g
  | None => Raise IndexError
  end.

(** Truth value of what [group] returns. *)
Definition truthy (g : option string) : bool :=
  match g with
  | Some (String _ _) => true
  | _ => false
  end.

End Re.

(** ** Numbers: the arithmetic of Python the package relies on *)

Module Num.

(** [a < b], [a > b], [a <= b], [a == b] as Python evaluates them. *)
Definition ltb (a b : Q) : bool := if Qlt_le_dec a b then true else false.
Definition gtb (a b : Q) : bool := ltb b a.
Definition leb (a b : Q) : bool := negb (ltb b a).
Definition eqb (a b : Q) : bool := Qeq_bool a b.

(** The builtins [min] and [max] keep their first argument unless a later
    one is strictly smaller (larger). *)
Definition min (a b : Q) : Q := if ltb b a then b else a.
Definition max (a b : Q) : Q := if gtb b a then b else a.
Definition min3 (a b c : Q) : Q := min (min a b) c.
Definition max3 (a b c : Q) : Q := max (max a b) c.

(** True division: [ZeroDivisionError] on a zero divisor. *)
Definition div (a b : Q) : result Q :=
  if eqb b 0 then Raise ZeroDivisionError else Ok (a / b).

(** [x % 1.0]. *)
Definition mod1 (x : Q) : Q := x - inject_Z (Qfloor x).

(** [int(x)] truncates toward zero. *)
Definition trunc (x : Q) : Z := Z.quot (Qnum x) (Zpos (Qden x)).

(** [decimal.ROUND_HALF_DOWN] and [decimal.ROUND_HALF_UP] to an integer:
    to the nearest one, a tie going toward zero, respectively away from
    zero. *)
Definition half_down (x : Q) : Z :=
  let n := Qceiling (Qabs x - (1 # 2)) in
  if ltb x 0 then (- n)%Z else n.

Definition half_up (x : Q) : Z :=
  let n := Qfloor (Qabs x + (1 # 2)) in
  if ltb x 0 then (- n)%Z else n.

(** Decimal digits of a natural number, most significant first. *)
Definition digit (d : Z) : ascii :=
  ascii_of_nat (Z.to_nat d + (if (d <? 10)%Z then 48 else 55)).

Fixpoint digits_fuel (fuel : nat) (base n : Z) (acc : list ascii) : list ascii :=
  match fuel with
  | O => acc
  | S fuel' =>
      let acc' := digit (n mod base) :: acc in
      if (n / base =? 0)%Z then acc' else digits_fuel fuel' base (n / base) acc'
  end.

Definition digits (base n : Z) : list ascii :=
  digits_fuel (S (Z.to_nat (Z.log2 n))) base n [].

Definition sign_prefix (n : Z) : list ascii :=
  if (n <? 0)%Z then ["-"%char] else [].

Fixpoint zeros (k : nat) : list ascii :=
  match k with O => [] | S k' => "0"%char :: zeros k' end.

(** ["{:d}".format(n)]. *)
Definition fmt_d (n : Z) : string :=
  Str.of_chars (sign_prefix n ++ digits 10 (Z.abs n)).

(** ["{:02X}".format(n)]: upper-case hexadecimal, filled with zeros to a
    width of two, the sign counting for the width. *)
Definition fmt_02X (n : Z) : string :=
  let body := sign_prefix n ++ digits 16 (Z.abs n) in
  Str.of_chars (sign_prefix n
                ++ zeros (2 - List.length body)
                ++ digits 16 (Z.abs n)).

(** [str(decimal.Decimal(x).quantize(Decimal(q), ROUND_HALF_UP))] where
    [q] is "0." followed by [p] zeros, or "0" when [p] is 0: the digits of
    the rounded value with the point [p] places from the right; the sign
    is that of [x]. *)
Definition quantize_half_up_str (x : Q) (p : nat) : string :=
  let n := Z.abs (half_up (x * inject_Z (10 ^ Z.of_nat p))) in
  let ds := digits 10 n in
  let ds := zeros (S p - List.length ds) ++ ds in
  let k := (List.length ds - p)%nat in
  Str.of_chars ((if ltb x 0 then ["-"%char] else [])
                ++ firstn k ds
                ++ match p with O => [] | S _ => "."%char :: skipn k ds end).

(** Values of digit characters. *)
Definition hex_value (c : ascii) : option Z :=
  let n := nat_of_ascii (Str.lower c) in
  if ((48 <=? n) && (n <=? 57))%nat then Some (Z.of_nat (n - 48))
  else if ((97 <=? n) && (n <=? 102))%nat then Some (Z.of_nat (n - 87))
  else None.

Definition dec_value (c : ascii) : option Z :=
  if Str.is_digit c then Some (Z.of_nat (nat_of_ascii c - 48)) else None.

Fixpoint number (value : ascii -> option Z) (base : Z) (acc : Z)
    (l : list ascii) : option Z :=
  match l with
  | [] => Some acc
  | c :: l' =>
      match value c with
      | Some d => number value base (base * acc + d) l'
      | None => None
      end
  end.

(** [int(s, 16)] on a string of hexadecimal digits; [ValueError] otherwise. *)
Definition int16 (s : string) : result Z :=
  match Str.chars s with
  | [] => Raise ValueError
  | l => match number hex_value 16 0 l with
         | Some n => Ok n
         | None => Raise ValueError
         end
  end.

Fixpoint split_at_point (l : list ascii) : list ascii * option (list ascii) :=
  match l with
  | [] => ([], None)
  | c :: l' =>
      if Ascii.eqb c "."%char then ([], Some l')
      else let '(i, f) := split_at_point l' in (c :: i, f)
  end.

(** [float(s)] on the literals the grammar lets through: an optional
    sign, digits, an optional point and fraction, at least one digit in
    all.  Anything else is answered with [ValueError]. *)
Definition float (s : string) : result Q :=
  let l := Str.chars s in
  let '(neg, body) :=
    match l with
    | "-"%char :: l' => (true, l')
    | "+"%char :: l' => (false, l')
    | _ => (false, l)
    end in
  let '(ip, fp) := split_at_point body in
  let fp := match fp with Some f => f | None => [] end in
  match ip ++ fp with
  | [] => Raise ValueError
  | ds =>
      match number dec_value 10 0 ds with
      | Some n =>
          let q := inject_Z n / inject_Z (10 ^ Z.of_nat (List.length fp)) in
          Ok (if neg then - q else q)
      | None => Raise ValueError
      end
  end.

End Num.

(** ** [colorsys]: the standard-library conversions [util.py] imports

    Transcribed from CPython's [Lib/colorsys.py]. *)

Module colorsys.

Definition ONE_THIRD : Q := 1 / 3.
Definition ONE_SIXTH : Q := 1 / 6.
Definition TWO_THIRD : Q := 2 / 3.

Definition hue_of (r g b maxc rc gc bc : Q) : Q :=
  let h :=
    if Num.eqb r maxc then bc - gc
    else if Num.eqb g maxc then 2 + rc - bc
    else 4 + gc - rc in
  Num.mod1 (h / 6).

Definition rgb_to_hls (r g b : Q) : result (Q * Q * Q) :=
  let maxc := Num.max3 r g b in
  let minc := Num.min3 r g b in
  let l := (minc + maxc) / 2 in
  if Num.eqb minc maxc then Ok (0, l, 0)
  else
    s <- (if Num.leb l (1 # 2)
          then Num.div (maxc - minc) (maxc + minc)
          else Num.div (maxc - minc) (2 - maxc - minc)) ;;
    rc <- Num.div (maxc - r) (maxc - minc) ;;
    gc <- Num.div (maxc - g) (maxc - minc) ;;
    bc <- Num.div (maxc - b) (maxc - minc) ;;
    Ok (hue_of r g b maxc rc gc bc, l, s).

Definition _v (m1 m2 hue : Q) : Q :=
  let hue := Num.mod1 hue in
  if Num.ltb hue ONE_SIXTH then m1 + (m2 - m1) * hue * 6
  else if Num.ltb hue (1 # 2) then m2
  else if Num.ltb hue TWO_THIRD then m1 + (m2 - m1) * (TWO_THIRD - hue) * 6
  else m1.

Definition hls_to_rgb (h l s : Q) : Q * Q * Q :=
  if Num.eqb s 0 then (l, l, l)
  else
    let m2 := if Num.leb l (1 # 2) then l * (1 + s) else l + s - (l * s) in
    let m1 := 2 * l - m2 in
    (_v m1 m2 (h + ONE_THIRD), _v m1 m2 h, _v m1 m2 (h - ONE_THIRD)).

Definition rgb_to_hsv (r g b : Q) : result (Q * Q * Q) :=
  let maxc := Num.max3 r g b in
  let minc := Num.min3 r g b in
  let v := maxc in
  if Num.eqb minc maxc then Ok (0, 0, v)
  else
    s <- Num.div (maxc - minc) maxc ;;
    rc <- Num.div (maxc - r) (maxc - minc) ;;
    gc <- Num.div (maxc - g) (maxc - minc) ;;
    bc <- Num.div (maxc - b) (maxc - minc) ;;
    Ok (hue_of r g b maxc rc gc bc, s, v).

Definition hsv_to_rgb (h s v : Q) : Q * Q * Q :=
  if Num.eqb s 0 then (v, v, v)
  else
    let i := Num.trunc (h * 6) in
    let f := (h * 6) - inject_Z i in
    let p := v * (1 - s) in
    let q := v * (1 - s * f) in
    let t := v * (1 - s * (1 - f)) in
    match (i mod 6)%Z with
    | 0%Z => (v, t, p)
    | 1%Z => (q, v, p)
    | 2%Z => (p, v, t)
    | 3%Z => (p, q, v)
    | 4%Z => (t, p, v)
    | _ => (v, p, q)
    end.

End colorsys.

(** ** What the host supplies

    [sublime.version()] decides [HSL_WORKAROUND]; the module [css_names]
    (the table of CSS colour names) and [math.degrees] are not part of the
    package. *)

Record host : Type := {
  HSL_WORKAROUND : bool;
  name2hex : string -> option string;
  hex2name : string -> option string;
  degrees : Q -> Q
}.

(** ** [util.py] *)

Module util.

Definition RGB_CHANNEL_SCALE : Q := 1 / 255.
Definition HUE_SCALE : Q := 1 / 360.
Definition SCALE_PERCENT : Q := 1 / 100.

Definition CONVERT_TURN : Q := 360.
Definition CONVERT_GRAD : Q := 90 / 100.

Inductive color_space : Type := CS_RGB | CS_HSL | CS_HWB.

(** The operation tags [OP_NULL] = 0 .. [OP_SUB] = 3; [OP_other] is any
    other value a caller passes. *)
Inductive operation : Type := OP_NULL | OP_SCALE | OP_ADD | OP_SUB | OP_other.

(** The names [util.py] binds at module level. *)
Definition names : list string :=
  ["re"; "rgb_to_hls"; "hls_to_rgb"; "rgb_to_hsv"; "hsv_to_rgb"; "decimal";
   "sublime"; "HSL_WORKAROUND"; "RGB_CHANNEL_SCALE"; "HUE_SCALE";
   "SCALE_PERCENT"; "CONVERT_TURN"; "CONVERT_GRAD"; "CS_RGB"; "CS_HSL";
   "CS_HWB"; "OP_NULL"; "OP_SCALE"; "OP_ADD"; "OP_SUB"; "RE_CHAN_SPLIT";
   "RE_FLOAT_TRIM_RE"; "COLOR_PARTS"; "rgb_to_hsl"; "hsl_to_rgb";
   "hwb_to_rgb"; "rgb_to_hwb"; "hsl_to_hwb"; "hwb_to_hsl";
   "rgb_blend_channel"; "percent_blend_channel"; "hue_blend_channel";
   "mix_channel"; "clamp"; "round_int"; "fmt_float"; "norm_perc_channel";
   "norm_rgb_channel"; "norm_alpha_channel"; "norm_hex_channel";
   "norm_angle"; "norm_hue_channel"]%string.

(** [COLOR_PARTS]. *)
Module PARTS.
Import Re.

Definition sign : re := opt (any_of "+-").
Definition digit : re := Class (range "0" "9").
Definition unsigned : re :=
  Alt (Cat (Star digit) (Cat (lit ".") (plus digit))) (plus digit).

Definition float : re := Cat sign unsigned.
Definition percent : re := Cat float (lit "%").
Definition angle : re :=
  Cat float (opt (Alt (word "deg") (Alt (word "rad")
                  (Alt (word "turn") (word "grad"))))).
Definition space : re := plus space_class.
Definition comma : re := Cat (Star space_class) (Cat (lit ",") (Star space_class)).
Definition slash : re := Cat (Star space_class) (Cat (lit "/") (Star space_class)).
Definition hex : re :=
  Class (fun c => range "a" "f" c || range "0" "9" c).

End PARTS.

Definition clamp (value mn mx : Q) : Q := Num.max (Num.min value mx) mn.

Definition rgb_to_hsl (r g b : Q) : result (Q * Q * Q) :=
  '(h, l, s) <- colorsys.rgb_to_hls r g b ;;
  Ok (h, s, l).

Definition hsl_to_rgb (h s l : Q) : Q * Q * Q :=
  colorsys.hls_to_rgb h l s.

(** [1.0 / (w + b)] is taken under [w + b > 1.0], a divisor that is not
    zero; [w / (1.0 - b)] is not protected. *)
Definition hwb_to_rgb (h w b : Q) : result (Q * Q * Q) :=
  let '(w, b) :=
    if Num.gtb (w + b) 1 then
      let norm_factor := 1 / (w + b) in
      (w * norm_factor, b * norm_factor)
    else (w, b) in
  q <- Num.div w (1 - b) ;;
  let s := 1 - q in
  let v := 1 - b in
  let '(r, g, b) := colorsys.hsv_to_rgb h s v in
  Ok (clamp r 0 1, clamp g 0 1, clamp b 0 1).

Definition rgb_to_hwb (r g b : Q) : result (Q * Q * Q) :=
  '(h, s, v) <- colorsys.rgb_to_hsv r g b ;;
  let w := (1 - s) * v in
  let b := 1 - v in
  Ok (h, w, b).

Definition hsl_to_hwb (h s l : Q) : result (Q * Q * Q) :=
  let '(r, g, b) := hsl_to_rgb h s l in
  rgb_to_hwb r g b.

Definition hwb_to_hsl (h w b : Q) : result (Q * Q * Q) :=
  '(r, g, b) <- hwb_to_rgb h w b ;;
  rgb_to_hwb r g b.

Definition rgb_blend_channel (c1 c2 f : Q) : Q :=
  clamp (Qabs (c1 * f + c2 * (1 - f))) 0 1.

Definition percent_blend_channel (c1 c2 f : Q) : Q :=
  clamp (Qabs (c1 * f + c2 * (1 - f))) 0 1.

(** [while value > bound: value -= step]. *)
Fixpoint while_above (fuel : nat) (bound step value : Q) : result Q :=
  match fuel with
  | O => OutOfFuel
  | S fuel' =>
      if Num.gtb value bound then while_above fuel' bound step (value - step)
      else Ok value
  end.

(** [while value < bound: value += step]. *)
Fixpoint while_below (fuel : nat) (bound step value : Q) : result Q :=
  match fuel with
  | O => OutOfFuel
  | S fuel' =>
      if Num.ltb value bound then while_below fuel' bound step (value + step)
      else Ok value
  end.

Definition hue_blend_channel (H : host) (fuel : nat) (c1 c2 f : Q) : result Q :=
  let c1 := c1 * 360 in
  let c2 := c2 * 360 in
  let '(c1, c2) :=
    if Num.gtb (Qabs (c1 - c2)) 180 then
      if Num.ltb c1 c2 then (c1 + 360, c2) else (c1, c2 + 360)
    else (c1, c2) in
  let f := if HSL_WORKAROUND H then 1 - f else f in
  let value := Qabs (c1 * f + c2 * (1 - f)) in
  value <- while_above fuel 360 360 value ;;
  Ok (value * HUE_SCALE).

Definition mix_channel (cf af cb ab : Q) : Q :=
  clamp (Qabs (cf * (af * 1) + cb * (ab * 1) * (1 - (af * 1)))) 0 1.

Definition round_int (dec : Q) : Z := Num.half_down dec.

(** [RE_CHAN_SPLIT.split(s)], the pattern being [(?:\s*[,/]\s*|\s+)]:
    a separator is a run of blanks holding at most one comma or slash.
    [Tok] reads a channel, [Blank] a separator that has met no comma or
    slash so far, [Sep] one that has. *)
Inductive split_state : Type := Tok | Blank | Sep.

Definition is_comma_slash (c : ascii) : bool :=
  Ascii.eqb c ","%char || Ascii.eqb c "/"%char.

Fixpoint chan_split_from (st : split_state) (tok : list ascii)
    (l : list ascii) : list string :=
  match l with
  | [] => [Str.of_chars (rev tok)]
  | c :: l' =>
      match st with
      | Tok =>
          if is_comma_slash c then
            Str.of_chars (rev tok) :: chan_split_from Sep [] l'
          else if Str.is_space c then
            Str.of_chars (rev tok) :: chan_split_from Blank [] l'
          else chan_split_from Tok (c :: tok) l'
      | Blank =>
          if is_comma_slash c then chan_split_from Sep [] l'
          else if Str.is_space c then chan_split_from Blank [] l'
          else chan_split_from Tok [c] l'
      | Sep =>
          if is_comma_slash c then
            EmptyString :: chan_split_from Sep [] l'
          else if Str.is_space c then chan_split_from Sep [] l'
          else chan_split_from Tok [c] l'
      end
  end.

Definition RE_CHAN_SPLIT_split (s : string) : list string :=
  chan_split_from Tok [] (Str.chars s).

(** [RE_FLOAT_TRIM_RE.match(s)], the pattern being
    [^(?P<keep>\d+)(?P<trash>\.0+|(?P<keep2>\.\d*[1-9])0+)$]: the groups
    are [keep], [trash] and [keep2], in this order. *)
Fixpoint span (p : ascii -> bool) (l : list ascii) : list ascii * list ascii :=
  match l with
  | c :: l' => if p c then let '(a, b) := span p l' in (c :: a, b) else ([], l)
  | [] => ([], [])
  end.

Definition is_zero (c : ascii) : bool := Ascii.eqb c "0"%char.

Definition RE_FLOAT_TRIM_RE_match (s : string) : option Re.match_obj :=
  let l := Str.chars s in
  let l := match rev l with
           | "010"%char :: r => rev r
           | _ => l
           end in
  let '(keep, rest) := span Str.is_digit l in
  match keep, rest with
  | _ :: _, "."%char :: frac =>
      let '(zs, body) := span is_zero (rev frac) in
      if forallb Str.is_digit frac then
        match zs, body with
        | _ :: _, [] =>
            Some {| Re.groups := [Some (Str.of_chars keep);
                                  Some (Str.of_chars ("."%char :: frac));
                                  None] |}
        | _ :: _, _ :: _ =>
            Some {| Re.groups := [Some (Str.of_chars keep);
                                  Some (Str.of_chars ("."%char :: frac));
                                  Some (Str.of_chars ("."%char :: rev body))] |}
        | _, _ => None
        end
      else None
  | _, _ => None
  end.

(** [fmt_float] asks for [RE_FLOAT_TRIM]; the module binds the pattern
    under the name [RE_FLOAT_TRIM_RE]. *)
Definition fmt_float (f : Q) (p : nat) : result string :=
  let string := Num.quantize_half_up_str f p in
  RE_FLOAT_TRIM <- Py.global names "RE_FLOAT_TRIM" RE_FLOAT_TRIM_RE_match ;;
  match RE_FLOAT_TRIM string with
  | Some m =>
      keep <- Re.group m 1 ;;
      keep2 <- Re.group m 3 ;;
      let string := match keep with Some k => k | None => EmptyString end in
      Ok (if Re.truthy keep2
          then match keep2 with
               | Some k2 => (string ++ k2)%string
               | None => string
               end
          else string)
  | None => Ok string
  end.

Definition norm_perc_channel (value : string) : result Q :=
  x <- Num.float (Str.strip_chars "%" value) ;;
  Ok (clamp x 0 100 * SCALE_PERCENT).

Definition norm_rgb_channel (value : string) : result Q :=
  if Str.endswith value "%" then norm_perc_channel value
  else
    x <- Num.float value ;;
    Ok (clamp x 0 255 * RGB_CHANNEL_SCALE).

Definition norm_alpha_channel (value : string) : result Q :=
  if Str.endswith value "%" then norm_perc_channel value
  else
    x <- Num.float value ;;
    Ok (clamp x 0 1).

Definition norm_hex_channel (value : string) : result Q :=
  n <- Num.int16 value ;;
  Ok (inject_Z n * RGB_CHANNEL_SCALE).

(** [norm_angle] asks for [math], which [util.py] never imports. *)
Definition norm_angle (H : host) (angle : string) : result Q :=
  if Str.endswith angle "turn" then
    x <- Num.float (Str.drop_last 4 angle) ;;
    Ok (x * CONVERT_TURN)
  else if Str.endswith angle "grad" then
    x <- Num.float (Str.drop_last 4 angle) ;;
    Ok (x * CONVERT_GRAD)
  else if Str.endswith angle "rad" then
    math_degrees <- Py.global names "math" (degrees H) ;;
    x <- Num.float (Str.drop_last 3 angle) ;;
    Ok (math_degrees x)
  else if Str.endswith angle "grad" then
    x <- Num.float (Str.drop_last 3 angle) ;;
    Ok (x * CONVERT_GRAD)
  else if Str.endswith angle "deg" then
    Num.float (Str.drop_last 3 angle)
  else Num.float angle.

Definition norm_hue_channel (H : host) (value : string) : result Q :=
  x <- norm_angle H value ;;
  Ok (clamp x 0 360 * HUE_SCALE).

End util.

Export util.

(** ** Colour objects

    An instance of [RGB], [HSL] or [HWB]: its class and the slots that
    [_ColorBase] and its subclasses read and write. *)

Record colour : Type := Colour {
  cls : color_space;
  _c1 : Q;
  _c2 : Q;
  _c3 : Q;
  _c0 : Q
}.

(** What a caller may hand to a constructor or pass as a background. *)
Inductive value : Type :=
| VColor (c : colour)
| VStr (s : string)
| VSeq (l : list Q)
| VNone
| VOther.

Definition is_None (v : value) : bool :=
  match v with VNone => true | _ => false end.

Definition cls_eqb (a b : color_space) : bool :=
  match a, b with
  | CS_RGB, CS_RGB | CS_HSL, CS_HSL | CS_HWB, CS_HWB => true
  | _, _ => false
  end.

(** [isinstance(obj, K)] for an object that is a colour. *)
Definition isinstance (obj : colour) (K : color_space) : bool :=
  cls_eqb (cls obj) K.

(** The property setters: every one stores [util.clamp(value, 0.0, 1.0)]
    in its slot. *)
Definition set_c1 (self : colour) (v : Q) : colour :=
  Colour (cls self) (clamp v 0 1) (_c2 self) (_c3 self) (_c0 self).
Definition set_c2 (self : colour) (v : Q) : colour :=
  Colour (cls self) (_c1 self) (clamp v 0 1) (_c3 self) (_c0 self).
Definition set_c3 (self : colour) (v : Q) : colour :=
  Colour (cls self) (_c1 self) (_c2 self) (clamp v 0 1) (_c0 self).
Definition set_c0 (self : colour) (v : Q) : colour :=
  Colour (cls self) (_c1 self) (_c2 self) (_c3 self) (clamp v 0 1).

(** A slot written without a setter, as [update_from] and [apply_alpha]
    do. *)
Definition put_c1 (self : colour) (v : Q) : colour :=
  Colour (cls self) v (_c2 self) (_c3 self) (_c0 self).
Definition put_c2 (self : colour) (v : Q) : colour :=
  Colour (cls self) (_c1 self) v (_c3 self) (_c0 self).
Definition put_c3 (self : colour) (v : Q) : colour :=
  Colour (cls self) (_c1 self) (_c2 self) v (_c0 self).

(** A new instance of class [K] whose four properties are assigned
    [x1], [x2], [x3] and alpha [x0], each through its setter. *)
Definition assign (K : color_space) (x1 x2 x3 x0 : Q) : colour :=
  Colour K (clamp x1 0 1) (clamp x2 0 1) (clamp x3 0 1) (clamp x0 0 1).

(** A property read on an object whose class may lack it. *)
Definition getattr (obj : colour) (owners : list color_space) (name : string)
    (slot : colour -> Q) : result Q :=
  if existsb (cls_eqb (cls obj)) owners then Ok (slot obj)
  else Raise (AttributeError name).

(** ** [base.py]: the accessors of [_ColorBase] *)

Module base.

Definition names : list string := ["util"; "_ColorBase"]%string.

Definition a (self : colour) : Q := _c0 self.
Definition set_a : colour -> Q -> colour := set_c0.

(** [alpha] compares [op] with [OP_SCALE], a name [base.py] has only
    under [util]. *)
Definition alpha (self : colour) (factor : Q) (op : operation)
  : result (colour * Q) :=
  OP_SCALE' <- Py.global names "OP_SCALE" OP_SCALE ;;
  let self :=
    match op with
    | OP_SCALE => set_a self (a self + (1 * factor) - 1)
    | OP_ADD => set_a self (a self + (a self * factor))
    | OP_SUB => set_a self (a self - (a self * factor))
    | _ => set_a self factor
    end in
  Ok (self, a self).

End base.

(** ** [rgb.py] *)

Module rgb.

Definition names : list string :=
  ["_ColorBase"; "util"; "css_names"; "re"; "__all__"; "RE_COMPRESS";
   "_RGB"]%string.

Local Open Scope string_scope.

Definition DEF_BG : string := "rgb(0 0 0 / 1)".

Definition r (self : colour) : Q := _c1 self.
Definition g (self : colour) : Q := _c2 self.
Definition b (self : colour) : Q := _c3 self.
Definition set_r : colour -> Q -> colour := set_c1.
Definition set_g : colour -> Q -> colour := set_c2.
Definition set_b : colour -> Q -> colour := set_c3.

Section Patterns.
Import Re.
Import util.PARTS.

(** [RE_COMPRESS]: the pattern is compiled without [format], so [{hex}]
    stands for these five characters and each back-reference for the
    same five (up to case). *)
Definition RE_COMPRESS : re :=
  let hex5 := word "{hex}" in
  Cat (lit "#")
      (Cat (rep 3 (Cat hex5 hex5)) (opt (Cat hex5 hex5))).

Definition alpha_part (sep : re) : re :=
  opt (Cat sep (Alt percent float)).

Definition triple (chan sep : re) : re :=
  Cat (rep 2 (Cat chan sep)) chan.

Definition hex_digits : re :=
  Alt (Cat (rep 6 hex) (opt (rep 2 hex))) (Cat (rep 3 hex) (opt hex)).

(** [CSS_MATCH], between [^] and [$]. *)
Definition CSS_MATCH : re :=
  Alt
    (Cat (word "rgb") (Cat (opt (lit "a")) (Cat (lit "(") (Cat (Star space_class)
      (Cat
        (Alt
          (Cat (Alt (triple float space) (triple percent space))
               (alpha_part slash))
          (Cat (Alt (triple float comma) (triple percent comma))
               (alpha_part comma)))
        (Cat (Star space_class) (lit ")")))))))
    (Cat (lit "#") hex_digits).

(** [HEX_MATCH]: no anchor at the end and no capturing group. *)
Definition HEX_MATCH : re := Cat (lit "#") hex_digits.

End Patterns.

Definition CSS_MATCH_match (s : string) : bool :=
  Re.match_anchored CSS_MATCH s.

Definition HEX_MATCH_match (s : string) : option Re.match_obj :=
  if Re.prefix HEX_MATCH (Str.chars s)
  then Some {| Re.groups := [] |}
  else None.

Definition RE_COMPRESS_match (s : string) : bool :=
  Re.match_anchored RE_COMPRESS s.

(** Keyword arguments of [to_css]. *)
Record css_options : Type := {
  alpha : bool;
  prefer_alpha : bool;
  prefer_name : bool;
  prefer_hex : bool;
  compress : bool;
  comma : bool
}.

Definition defaults : css_options :=
  {| alpha := false; prefer_alpha := false; prefer_name := false;
     prefer_hex := false; compress := false; comma := false |}.

Definition chan255 (c : Q) : Z := round_int (c * 255).

Definition _get_rgb (self : colour) (comma : bool) : string :=
  let r' := Num.fmt_d (chan255 (r self)) in
  let g' := Num.fmt_d (chan255 (g self)) in
  let b' := Num.fmt_d (chan255 (b self)) in
  if comma then "rgb(" ++ r' ++ ", " ++ g' ++ ", " ++ b' ++ ")"
  else "rgb(" ++ r' ++ " " ++ g' ++ " " ++ b' ++ ")".

Definition _get_rgba (self : colour) (comma : bool) : result string :=
  let r' := Num.fmt_d (chan255 (r self)) in
  let g' := Num.fmt_d (chan255 (g self)) in
  let b' := Num.fmt_d (chan255 (b self)) in
  a' <- fmt_float (base.a self) 3 ;;
  Ok (if comma
      then "rgba(" ++ r' ++ ", " ++ g' ++ ", " ++ b' ++ ", " ++ a' ++ ")"
      else "rgb(" ++ r' ++ " " ++ g' ++ " " ++ b' ++ " / " ++ a' ++ ")").

(** [m.expand] on a match of [RE_COMPRESS]: each group holds five
    characters and so does each back-reference. *)
Definition expand_compress (value : string) (with_alpha : bool) : string :=
  "#" ++ String.substring 1 5 value ++ String.substring 11 5 value
      ++ String.substring 21 5 value
      ++ (if with_alpha then String.substring 31 5 value else "").

Definition _get_hexa (self : colour) (compress : bool) : string :=
  let value :=
    "#" ++ Num.fmt_02X (chan255 (r self)) ++ Num.fmt_02X (chan255 (g self))
        ++ Num.fmt_02X (chan255 (b self))
        ++ Num.fmt_02X (chan255 (base.a self)) in
  if compress && RE_COMPRESS_match value
  then expand_compress value true
  else value.

Definition _get_hex (self : colour) (compress : bool) : string :=
  let value :=
    "#" ++ Num.fmt_02X (chan255 (r self)) ++ Num.fmt_02X (chan255 (g self))
        ++ Num.fmt_02X (chan255 (b self)) in
  if compress && RE_COMPRESS_match value
  then expand_compress value false
  else value.

Definition nonempty (s : string) : bool :=
  match s with EmptyString => false | _ => true end.

(** [to_css] calls [_get_hexa()] and [_get_hex()] with no argument: their
    [compress] stays at its default, whatever [to_css] was given. *)
Definition to_css (H : host) (self : colour) (o : css_options) : result string :=
  let with_alpha := alpha o && (prefer_alpha o || Num.ltb (base.a self) 1) in
  let value :=
    if prefer_hex o || prefer_name o then
      let h := if with_alpha then _get_hexa self false
               else _get_hex self false in
      let value := if prefer_hex o then h else "" in
      if prefer_name o then
        match hex2name H h with
        | Some name => name
        | None => value
        end
      else value
    else "" in
  if negb (nonempty value) then
    if with_alpha then _get_rgba self (comma o)
    else Ok (_get_rgb self (comma o))
  else Ok value.

(** The loop of [_split_channels]: the channel of index 3 is an alpha. *)
Fixpoint norm_channels (i : nat) (cs : list string) : result (list Q) :=
  match cs with
  | [] => Ok []
  | c :: cs' =>
      x <- (if Nat.eqb i 3 then norm_alpha_channel c else norm_rgb_channel c) ;;
      xs <- norm_channels (S i) cs' ;;
      Ok (x :: xs)
  end.

Definition hex_channel (s : string) : result Q :=
  n <- Num.int16 s ;;
  Ok (inject_Z n * RGB_CHANNEL_SCALE).

Definition group_text (g : option string) : string :=
  match g with Some s => s | None => "" end.

(** [_split_channels]: in its hexadecimal branch it reads groups 1, 2 and
    4 of a match of [HEX_MATCH], and a name [r] that nothing binds (the
    index given to its lookup is never used). *)
Definition _split_channels (color : string) : result (list Q) :=
  if Str.startswith color "rgb" then
    let start := if Str.startswith color "rgba" then 5%nat else 4%nat in
    channels <- norm_channels 0
      (RE_CHAN_SPLIT_split (Str.strip (Str.drop_last 1 (Str.from start color)))) ;;
    Ok (if Nat.eqb (List.length channels) 3 then (channels ++ [1])%list else channels)
  else
    match HEX_MATCH_match color with
    | None => Raise AssertionError
    | Some m =>
        g1 <- Re.group m 1 ;;
        if Re.truthy g1 then
          c1 <- hex_channel (Str.slice 1 3 color) ;;
          c2 <- hex_channel (Str.slice 3 5 color) ;;
          c3 <- hex_channel (Str.slice 5 7 color) ;;
          g2 <- Re.group m 2 ;;
          c0 <- (if Re.truthy g2
                 then g2' <- Re.group m 2 ;; hex_channel (group_text g2')
                 else Ok 1) ;;
          Ok [c1; c2; c3; c0]
        else
          d1 <- Str.index 1 color ;;
          c1 <- hex_channel (Str.twice d1) ;;
          d2 <- Str.index 2 color ;;
          c2 <- hex_channel (Str.twice d2) ;;
          d3 <- Str.index 3 color ;;
          c3 <- hex_channel (Str.twice d3) ;;
          r' <- Py.global names "r" 0%nat ;;
          gr <- Re.group m r' ;;
          c0 <- (if Re.truthy gr
                 then g4 <- Re.group m 4 ;; hex_channel (group_text g4)
                 else Ok 1) ;;
          Ok [c1; c2; c3; c0]
    end.

Definition css_match (H : host) (string : string) : result (option (list Q)) :=
  if CSS_MATCH_match string then
    channels <- _split_channels string ;;
    Ok (Some channels)
  else
    match name2hex H string with
    | Some hex =>
        channels <- _split_channels hex ;;
        Ok (Some channels)
    | None => Ok None
    end.

(** [__str__]. *)
Definition __str__ (H : host) (self : colour) : result string :=
  to_css H self
    {| alpha := true; prefer_alpha := true; prefer_name := false;
       prefer_hex := false; compress := false; comma := false |}.

End rgb.

(** ** [hsl.py] and [hwb.py]

    The two classes share their grammar (up to the function name), the
    hue rotation and the shape of their channel methods. *)

Section HueFamily.
Import Re.
Import util.PARTS.

Definition hue_args (sep alpha_sep : re) : re :=
  Cat angle (Cat sep (Cat percent (Cat sep (Cat percent
    (opt (Cat alpha_sep (Alt percent float))))))).

(** The grammar after the function name: between [\(\s*] and [\s*\)]. *)
Definition hue_call : re :=
  Cat (lit "(") (Cat (Star space_class)
    (Cat (Alt (hue_args space slash) (hue_args comma comma))
         (Cat (Star space_class) (lit ")")))).

End HueFamily.

(** The loop of [_split_channels] in both classes: a hue, two percentages
    and, at index 3, an alpha. *)
Fixpoint norm_hue_channels (H : host) (i : nat) (cs : list string)
  : result (list Q) :=
  match cs with
  | [] => Ok []
  | c :: cs' =>
      x <- (match i with
            | 0%nat => norm_hue_channel H c
            | 3%nat => norm_alpha_channel c
            | _ => norm_perc_channel c
            end) ;;
      xs <- norm_hue_channels H (S i) cs' ;;
      Ok (x :: xs)
  end.

Module hsl.

Local Open Scope string_scope.

Definition DEF_BG : string := "hsl(0 0% 0% / 1.0)".

Definition CSS_MATCH : Re.re :=
  Re.Cat (Re.word "hsl") (Re.Cat (Re.opt (Re.lit "a")) hue_call).

Definition h (self : colour) : Q := _c1 self.
Definition s (self : colour) : Q := _c2 self.
Definition l (self : colour) : Q := _c3 self.
Definition set_h : colour -> Q -> colour := set_c1.
Definition set_s : colour -> Q -> colour := set_c2.
Definition set_l : colour -> Q -> colour := set_c3.

Definition _get_hsl (self : colour) (comma : bool) : string :=
  let h' := Num.fmt_d (round_int (h self * 360)) in
  let s' := Num.fmt_d (round_int (s self * 100)) in
  let l' := Num.fmt_d (round_int (l self * 100)) in
  if comma then "hsl(" ++ h' ++ ", " ++ s' ++ "%, " ++ l' ++ "%)"
  else "hsl(" ++ h' ++ " " ++ s' ++ "% " ++ l' ++ "%)".

Definition _get_hsla (self : colour) (comma : bool) : result string :=
  let h' := Num.fmt_d (round_int (h self * 360)) in
  let s' := Num.fmt_d (round_int (s self * 100)) in
  let l' := Num.fmt_d (round_int (l self * 100)) in
  a' <- fmt_float (base.a self) 3 ;;
  Ok (if comma
      then "hsla(" ++ h' ++ ", " ++ s' ++ "%, " ++ l' ++ "%, " ++ a' ++ ")"
      else "hsl(" ++ h' ++ " " ++ s' ++ "% " ++ l' ++ "% / " ++ a' ++ ")").

Definition to_css (self : colour) (alpha prefer_alpha comma : bool)
  : result string :=
  if alpha && (prefer_alpha || Num.ltb (base.a self) 1)
  then _get_hsla self comma
  else Ok (_get_hsl self comma).

Definition _split_channels (H : host) (color : string) : result (list Q) :=
  let start := if Str.startswith color "hsla" then 5%nat else 4%nat in
  channels <- norm_hue_channels H 0
    (RE_CHAN_SPLIT_split (Str.strip (Str.drop_last 1 (Str.from start color)))) ;;
  Ok (if Nat.eqb (List.length channels) 3
      then (channels ++ [1])%list else channels).

Definition css_match (H : host) (string : string) : result (option (list Q)) :=
  if Re.match_anchored CSS_MATCH string then
    channels <- _split_channels H string ;;
    Ok (Some channels)
  else Ok None.

(** [__str__]. *)
Definition __str__ (self : colour) : result string :=
  to_css self true true false.

End hsl.

Module hwb.

Local Open Scope string_scope.

Definition DEF_BG : string := "hwb(0 0% 0% / 1.0)".

(** The pattern starts with [hwb?]: the [b] is optional. *)
Definition CSS_MATCH : Re.re :=
  Re.Cat (Re.word "hw") (Re.Cat (Re.opt (Re.lit "b")) hue_call).

Definition h (self : colour) : Q := _c1 self.
Definition w (self : colour) : Q := _c2 self.
Definition b (self : colour) : Q := _c3 self.
Definition set_h : colour -> Q -> colour := set_c1.
Definition set_w : colour -> Q -> colour := set_c2.
Definition set_b : colour -> Q -> colour := set_c3.

Definition _get_hwb (self : colour) (comma : bool) : string :=
  let h' := Num.fmt_d (round_int (h self * 360)) in
  let w' := Num.fmt_d (round_int (w self * 100)) in
  let b' := Num.fmt_d (round_int (b self * 100)) in
  if comma then "hwb(" ++ h' ++ ", " ++ w' ++ "%, " ++ b' ++ "%)"
  else "hwb(" ++ h' ++ " " ++ w' ++ "% " ++ b' ++ "%)".

Definition _get_hwba (self : colour) (comma : bool) : result string :=
  let h' := Num.fmt_d (round_int (h self * 360)) in
  let w' := Num.fmt_d (round_int (w self * 100)) in
  let b' := Num.fmt_d (round_int (b self * 100)) in
  a' <- fmt_float (base.a self) 3 ;;
  Ok (if comma
      then "hwb(" ++ h' ++ ", " ++ w' ++ "%, " ++ b' ++ "%, " ++ a' ++ ")"
      else "hwb(" ++ h' ++ " " ++ w' ++ "% " ++ b' ++ "% / " ++ a' ++ ")").

Definition to_css (self : colour) (alpha prefer_alpha comma : bool)
  : result string :=
  if alpha && (prefer_alpha || Num.ltb (base.a self) 1)
  then _get_hwba self comma
  else Ok (_get_hwb self comma).

Definition _split_channels (H : host) (color : string) : result (list Q) :=
  let start := 4%nat in
  channels <- norm_hue_channels H 0
    (RE_CHAN_SPLIT_split (Str.strip (Str.drop_last 1 (Str.from start color)))) ;;
  Ok (if Nat.eqb (List.length channels) 3
      then (channels ++ [1])%list else channels).

Definition css_match (H : host) (string : string) : result (option (list Q)) :=
  if Re.match_anchored CSS_MATCH string then
    channels <- _split_channels H string ;;
    Ok (Some channels)
  else Ok None.

(** [__str__]. *)
Definition __str__ (self : colour) : result string :=
  to_css self true true false.

End hwb.

(** ** [__init__.py]: the three public classes *)

Module colorcss.

(** The names [__init__.py] binds at module level. *)
Definition names : list string :=
  ["_RGB"; "_HSL"; "_HWB"; "util"; "__all__"; "CS_RGB"; "CS_HSL"; "CS_HWB";
   "OP_NULL"; "OP_SCALE"; "OP_ADD"; "OP_SUB"; "_ColorUtil"; "RGB"; "HSL";
   "HWB"; "css_color"]%string.

(** [self.x1, self.x2, self.x3, self.a = values]. *)
Definition unpack4 (K : color_space) (values : list Q) : result colour :=
  match values with
  | [x1; x2; x3; x0] => Ok (assign K x1 x2 x3 x0)
  | _ => Raise ValueError
  end.

(** The branch for a list or a tuple, the same in the three classes. *)
Definition from_sequence (K : color_space) (color : list Q) : result colour :=
  let n := List.length color in
  if negb ((3 <=? n)%nat && (n <=? 4)%nat) then Raise ValueError
  else
    match color with
    | x1 :: x2 :: x3 :: rest =>
        Ok (assign K (clamp x1 0 1) (clamp x2 0 1) (clamp x3 0 1)
                  (match rest with
                   | [] => 1
                   | x0 :: _ => clamp x0 0 1
                   end))
    | _ => Raise IndexError
    end.

(** The branch for a string.  Its test [color is None] is made on a
    value that is a string. *)
Definition from_string (K : color_space) (DEF_BG : string)
    (css_match : string -> result (option (list Q))) (color : string)
  : result colour :=
  let color := if is_None (VStr color) then DEF_BG else color in
  values <- css_match color ;;
  match values with
  | None => Raise ValueError
  | Some values => unpack4 K values
  end.

Section Classes.
Variable H : host.

(** [RGB.__init__]. *)
Definition RGB (color : value) : result colour :=
  match color with
  | VColor c =>
      match cls c with
      | CS_RGB => Ok (assign CS_RGB (rgb.r c) (rgb.g c) (rgb.b c) (base.a c))
      | CS_HSL =>
          let '(r, g, b) := hsl_to_rgb (hsl.h c) (hsl.s c) (hsl.l c) in
          Ok (assign CS_RGB r g b (base.a c))
      | CS_HWB =>
          '(r, g, b) <- hwb_to_rgb (hwb.h c) (hwb.w c) (hwb.b c) ;;
          Ok (assign CS_RGB r g b (base.a c))
      end
  | VStr s => from_string CS_RGB rgb.DEF_BG (rgb.css_match H) s
  | VSeq l => from_sequence CS_RGB l
  | _ => Raise TypeError
  end.

(** [HSL.__init__]. *)
Definition HSL (color : value) : result colour :=
  match color with
  | VColor c =>
      match cls c with
      | CS_HSL => Ok (assign CS_HSL (hsl.h c) (hsl.s c) (hsl.l c) (base.a c))
      | CS_RGB =>
          '(h, s, l) <- rgb_to_hsl (rgb.r c) (rgb.g c) (rgb.b c) ;;
          Ok (assign CS_HSL h s l (base.a c))
      | CS_HWB =>
          '(h, s, l) <- hwb_to_hsl (hwb.h c) (hwb.w c) (hwb.b c) ;;
          Ok (assign CS_HSL h s l (base.a c))
      end
  | VStr s => from_string CS_HSL hsl.DEF_BG (hsl.css_match H) s
  | VSeq l => from_sequence CS_HSL l
  | _ => Raise TypeError
  end.

(** [HWB.__init__]. *)
Definition HWB (color : value) : result colour :=
  match color with
  | VColor c =>
      match cls c with
      | CS_HWB => Ok (assign CS_HWB (hwb.h c) (hwb.w c) (hwb.b c) (base.a c))
      | CS_RGB =>
          '(h, w, b) <- rgb_to_hwb (rgb.r c) (rgb.g c) (rgb.b c) ;;
          Ok (assign CS_HWB h w b (base.a c))
      | CS_HSL =>
          '(h, w, b) <- hsl_to_hwb (hsl.h c) (hsl.s c) (hsl.l c) ;;
          Ok (assign CS_HWB h w b (base.a c))
      end
  | VStr s => from_string CS_HWB hwb.DEF_BG (hwb.css_match H) s
  | VSeq l => from_sequence CS_HWB l
  | _ => Raise TypeError
  end.

(** [type(self)(x)]. *)
Definition construct (K : color_space) (x : value) : result colour :=
  match K with
  | CS_RGB => RGB x
  | CS_HSL => HSL x
  | CS_HWB => HWB x
  end.

Definition DEF_BG (K : color_space) : string :=
  match K with
  | CS_RGB => rgb.DEF_BG
  | CS_HSL => hsl.DEF_BG
  | CS_HWB => hwb.DEF_BG
  end.

(** [css_color]. *)
Definition css_color (string : string) : result colour :=
  v <- rgb.css_match H string ;;
  match v with
  | Some value => RGB (VSeq value)
  | None =>
      v <- hsl.css_match H string ;;
      match v with
      | Some value => HSL (VSeq value)
      | None =>
          v <- hwb.css_match H string ;;
          match v with
          | Some value => HWB (VSeq value)
          | None => Raise ValueError
          end
      end
  end.

(** *** [_ColorBase.update_from] and [_ColorBase.apply_alpha]

    [same] tells whether [obj] is the very object [self]. *)
Definition update_from (self : colour) (same : bool) (obj : colour)
  : result colour :=
  if same then Ok self
  else
    obj <- (if negb (isinstance obj (cls self))
            then construct (cls self) (VColor obj) else Ok obj) ;;
    let self := put_c1 self (_c1 obj) in
    let self := put_c2 self (_c2 obj) in
    let self := put_c3 self (_c3 obj) in
    Ok (base.set_a self (base.a obj)).

Definition apply_alpha (self : colour) (background : value) : result colour :=
  background <-
    (match background with
     | VNone => construct (cls self) (VStr (DEF_BG (cls self)))
     | VColor bg =>
         if negb (isinstance bg (cls self))
         then construct (cls self) background else Ok bg
     | _ => construct (cls self) background
     end) ;;
  if Num.ltb (base.a self) 1 then
    let self := put_c1 self
      (mix_channel (_c1 self) (base.a self) (_c1 background) (base.a background)) in
    let self := put_c2 self
      (mix_channel (_c2 self) (base.a self) (_c2 background) (base.a background)) in
    let self := put_c3 self
      (mix_channel (_c3 self) (base.a self) (_c3 background) (base.a background)) in
    Ok (base.set_a self 1)
  else Ok self.

(** *** [_ColorUtil] *)

Definition get_luminance (self : colour) : result Q :=
  rgb <- RGB (VColor self) ;;
  Ok (clamp
        (inject_Z (round_int ((299 # 1000) * (rgb.r rgb * 255)
                              + (587 # 1000) * (rgb.g rgb * 255)
                              + (114 # 1000) * (rgb.b rgb * 255))))
        0 255).

Definition colorize (self : colour) (deg : Q) : result colour :=
  hsl <- HSL (VColor self) ;;
  let hsl := hsl.set_h hsl (deg * HUE_SCALE) in
  update_from self false hsl.

(** [contrast] calls [clamp] without the prefix [util.]. *)
Definition contrast (self : colour) (factor : Q) : result colour :=
  rgb <- RGB (VColor self) ;;
  clamp' <- Py.global names "clamp" clamp ;;
  let f := (clamp' factor 0 2 - 1) * 255 in
  f <- Num.div (259 * (f + 255)) (255 * (259 - f)) ;;
  let rgb := rgb.set_r rgb
    (clamp ((f * ((rgb.r rgb * 255) - 128)) + 128) 0 255 * RGB_CHANNEL_SCALE) in
  let rgb := rgb.set_g rgb
    (clamp ((f * ((rgb.g rgb * 255) - 128)) + 128) 0 255 * RGB_CHANNEL_SCALE) in
  let rgb := rgb.set_b rgb
    (clamp ((f * ((rgb.b rgb * 255) - 128)) + 128) 0 255 * RGB_CHANNEL_SCALE) in
  update_from self false rgb.

Definition grayscale (self : colour) : result colour :=
  rgb <- RGB (VColor self) ;;
  luminance <- get_luminance self ;;
  let rgb := rgb.set_r rgb luminance in
  let rgb := rgb.set_g rgb luminance in
  let rgb := rgb.set_b rgb luminance in
  update_from self false rgb.

Definition _get_overage (c : Q) : Q * Q :=
  if Num.ltb c 0 then (0 + c, 0)
  else if Num.gtb c 255 then (c - 255, 255)
  else (0, c).

(** Membership in the set of channel names still open. *)
Definition mem (name : string) (s : list string) : bool :=
  existsb (String.eqb name) s.

Definition _distribute_overage (c : Q * Q * Q) (o : Q) (s : list string)
  : result (Q * Q * Q) :=
  let channels := List.length s in
  if Nat.eqb channels 0 then Ok c
  else
    parts <- Num.div o (inject_Z (Z.of_nat (List.length s))) ;;
    let '(c0, c1, c2) := c in
    Ok (if mem "r" s && mem "g" s then (c0 + parts, c1 + parts, c2)
        else if mem "r" s && mem "b" s then (c0 + parts, c1, c2 + parts)
        else if mem "g" s && mem "b" s then (c0, c1 + parts, c2 + parts)
        else if mem "r" s then (c0 + parts, c1, c2)
        else if mem "g" s then (c0, c1 + parts, c2)
        else (c0, c1, c2 + parts)).

Definition component (c : Q * Q * Q) (i : nat) : Q :=
  let '(c0, c1, c2) := c in
  match i with 0%nat => c0 | 1%nat => c1 | _ => c2 end.

Definition set_component (c : Q * Q * Q) (i : nat) (x : Q) : Q * Q * Q :=
  let '(c0, c1, c2) := c in
  match i with
  | 0%nat => (x, c1, c2)
  | 1%nat => (c0, x, c2)
  | _ => (c0, c1, x)
  end.

(** The [for] loop of [brightness] over the channel names left to visit. *)
Fixpoint brightness_loop (todo : list string) (count : nat)
    (slots : list string) (components : Q * Q * Q) : result (Q * Q * Q) :=
  match todo with
  | [] => Ok components
  | c :: todo' =>
      let '(overage, x) := _get_overage (component components count) in
      let components := set_component components count x in
      '(slots, components) <-
        (if negb (Num.eqb overage 0) then
           let slots := filter (fun n => negb (String.eqb n c)) slots in
           components <- _distribute_overage components overage slots ;;
           Ok (slots, components)
         else Ok (slots, components)) ;;
      brightness_loop todo' (S count) slots components
  end.

(** [brightness] calls [clamp] without the prefix [util.]. *)
Definition brightness (self : colour) (factor : Q) : result colour :=
  rgb <- RGB (VColor self) ;;
  let channels := ["r"; "g"; "b"]%string in
  clamp' <- Py.global names "clamp" clamp ;;
  lum <- get_luminance rgb ;;
  let total_lumes := clamp' (lum + (1 * factor) - 1) 0 1 in
  rgb <-
    (if Num.eqb total_lumes 1 then
       Ok (rgb.set_b (rgb.set_g (rgb.set_r rgb 1) 1) 1)
     else if Num.eqb total_lumes 0 then
       Ok (rgb.set_b (rgb.set_g (rgb.set_r rgb 0) 0) 0)
     else
       let pts := total_lumes - (299 # 1000) * rgb.r rgb
                  - (587 # 1000) * rgb.g rgb - (114 # 1000) * rgb.b rgb in
       let slots := channels in
       let components := (rgb.r rgb + pts, rgb.g rgb + pts, rgb.b rgb + pts) in
       components <- brightness_loop channels 0 slots components ;;
       let rgb := rgb.set_r rgb (component components 0) in
       let rgb := rgb.set_g rgb (component components 1) in
       let rgb := rgb.set_b rgb (component components 2) in
       Ok rgb) ;;
  update_from self false rgb.

(** The argument [color] of [blend], brought to class [K] by constructor
    [make] unless it is an instance of [K] already. *)
Definition coerce (K : color_space) (make : value -> result colour)
    (color : value) : result colour :=
  match color with
  | VColor c => if isinstance c K then Ok c else make color
  | _ => make color
  end.

(** [blend]: it multiplies by [SCALE_PERCENT] without the prefix [util.];
    in the HWB branch the other colour is built with [HSL]; when [self]
    is of the chosen class, [this] is [self], so the channels are written
    to [self] and [update_from] is handed [self] itself.  [color_space]
    is [None] for a selector that is none of the three. *)
Definition blend (fuel : nat) (self : colour) (color : value) (percent : Q)
    (alpha : bool) (color_space : option util.color_space) : result colour :=
  SCALE_PERCENT' <- Py.global names "SCALE_PERCENT" SCALE_PERCENT ;;
  let factor := clamp (clamp percent 0 100 * SCALE_PERCENT') 0 1 in
  '(this, color) <-
    (match color_space with
     | Some CS_RGB =>
         color <- coerce CS_RGB RGB color ;;
         this <- (if negb (isinstance self CS_RGB)
                  then RGB (VColor self) else Ok self) ;;
         let this := rgb.set_r this
           (rgb_blend_channel (rgb.r this) (rgb.r color) factor) in
         let this := rgb.set_g this
           (rgb_blend_channel (rgb.g this) (rgb.g color) factor) in
         let this := rgb.set_b this
           (rgb_blend_channel (rgb.b this) (rgb.b color) factor) in
         Ok (this, color)
     | Some CS_HSL =>
         color <- coerce CS_HSL HSL color ;;
         this <- (if negb (isinstance self CS_HSL)
                  then HSL (VColor self) else Ok self) ;;
         h <- hue_blend_channel H fuel (hsl.h this) (hsl.h color) factor ;;
         let this := hsl.set_h this h in
         let this := hsl.set_l this
           (percent_blend_channel (hsl.l this) (hsl.l color) factor) in
         let this := hsl.set_s this
           (percent_blend_channel (hsl.s this) (hsl.s color) factor) in
         Ok (this, color)
     | Some CS_HWB =>
         color <- coerce CS_HWB HSL color ;;
         this <- (if negb (isinstance self CS_HWB)
                  then HWB (VColor self) else Ok self) ;;
         h <- hue_blend_channel H fuel (hwb.h this) (hwb.h color) factor ;;
         let this := hwb.set_h this h in
         color_w <- getattr color [CS_HWB] "w" hwb.w ;;
         let this := hwb.set_w this
           (percent_blend_channel (hwb.w this) color_w factor) in
         color_b <- getattr color [CS_RGB; CS_HWB] "b" hwb.b ;;
         let this := hwb.set_b this
           (percent_blend_channel (hwb.b this) color_b factor) in
         Ok (this, color)
     | None => Raise ValueError
     end) ;;
  let this :=
    if alpha
    then base.set_a this (rgb_blend_channel (base.a this) (base.a color) factor)
    else this in
  if isinstance self (cls this)
  then update_from this true this
  else update_from self false this.

End Classes.

End colorcss.

Import colorcss.

(** ** Well-formed colours *)

Definition in_unit (x : Q) : Prop := 0 <= x /\ x <= 1.

Definition wf (c : colour) : Prop :=
  in_unit (_c1 c) /\ in_unit (_c2 c) /\ in_unit (_c3 c) /\ in_unit (_c0 c).

(** Two colours of one class whose channels are equal as numbers. *)
Definition same_colour (c d : colour) : Prop :=
  cls c = cls d /\ _c1 c == _c1 d /\ _c2 c == _c2 d /\ _c3 c == _c3 d
  /\ _c0 c == _c0 d.

(** A character that the [{] of a pattern does not match. *)
Definition not_brace (c : ascii) : Prop :=
  Ascii.eqb (Str.lower c) (Str.lower "{") = false.

(** A host with an empty table of colour names. *)
Definition bare_host : host :=
  {| HSL_WORKAROUND := false;
     name2hex := fun _ => None;
     hex2name := fun _ => None;
     degrees := fun x => x * (180 # 1) * (113 # 355) |}.

(** ** Auxiliary definitions for the further properties *)

(** A host whose table knows the name [red]. *)
Definition red_host : host :=
  {| HSL_WORKAROUND := false;
     name2hex := fun s => if String.eqb s "red" then Some "#ff0000"%string
                          else None;
     hex2name := fun s => if String.eqb s "#FF0000" then Some "red"%string
                          else None;
     degrees := fun x => x * (180 # 1) * (113 # 355) |}.

(** The set of channel names left after [brightness] has removed some. *)
Definition slots_kept (kr kg kb : bool) : list string :=
  filter (fun n => if String.eqb n "r" then kr
                   else if String.eqb n "g" then kg else kb)
         ["r"; "g"; "b"]%string.



(** The language of a pattern: the strings it matches as a whole. *)
Inductive lang : Re.re -> list ascii -> Prop :=
| lang_eps : lang Re.Eps []
| lang_class (p : ascii -> bool) (c : ascii) :
    p c = true -> lang (Re.Class p) [c]
| lang_cat (r s : Re.re) (l1 l2 : list ascii) :
    lang r l1 -> lang s l2 -> lang (Re.Cat r s) (l1 ++ l2)
| lang_alt_l (r s : Re.re) (l : list ascii) :
    lang r l -> lang (Re.Alt r s) l
| lang_alt_r (r s : Re.re) (l : list ascii) :
    lang s l -> lang (Re.Alt r s) l
| lang_star_nil (r : Re.re) : lang (Re.Star r) []
| lang_star_cons (r : Re.re) (l1 l2 : list ascii) :
    lang r l1 -> lang (Re.Star r) l2 -> lang (Re.Star r) (l1 ++ l2).






(** * The binary64 layer

    Where a statement depends on what rounding, infinities or NaN do, the
    functions it is about are embedded a second time, on binary64 floats
    (Rocq's primitive floats, which compute as IEEE 754 does).  What the
    package takes from Python's library is left to the host: [float] on a
    literal, [colorsys], and the operator [^], whose outcome depends on
    whether a slot holds a float or one of the ints 0 and 1 that [clamp]
    lets through as they are (a float model of the slots cannot tell). *)

Module F64.

Import PrimFloat.
Local Open Scope float_scope.
#[local] Set Warnings "-inexact-float".

(** The names bound by the modules of the package. *)
Definition util_names : list string := util.names.
Definition base_names : list string := base.names.
Definition init_names : list string := colorcss.names.

(** Python's [min(a, b)] and [max(a, b)]: the first argument stays unless
    the second is strictly smaller (larger); a NaN never wins and is never
    beaten. *)
Definition min (a b : float) : float := if b <? a then b else a.
Definition max (a b : float) : float := if a <? b then b else a.

(** [x == x]: false on NaN and on nothing else. *)
Definition number (x : float) : bool := x =? x.

(** [a / b] on floats. *)
Definition div (a b : float) : result float :=
  if b =? 0 then Raise ZeroDivisionError else Ok (a / b).

(** An int as a float (exact below 2^53). *)
Definition of_Z (n : Z) : float :=
  match n with
  | Z0 => 0
  | Zpos _ => of_uint63 (Uint63.of_Z n)
  | Zneg p => - of_uint63 (Uint63.of_Z (Zpos p))
  end.

(** The exact value of a finite float. *)
Definition to_Q (x : float) : option Q :=
  match Prim2SF x with
  | S754_zero _ => Some 0%Q
  | S754_finite s m e =>
      Some (inject_Z (if s then Zneg m else Zpos m) * Qpower 2 e)%Q
  | _ => None
  end.

(** What the host supplies: the version test, the table of colour names,
    [math.degrees], [float] on the value of a literal (the nearest
    binary64), the four functions of [colorsys], and [x ^ n]. *)
Record host : Type := {
  HSL_WORKAROUND : bool;
  name2hex : string -> option string;
  degrees : float -> float;
  nearest : Q -> float;
  rgb_to_hls : float -> float -> float -> result (float * float * float);
  hls_to_rgb : float -> float -> float -> result (float * float * float);
  rgb_to_hsv : float -> float -> float -> result (float * float * float);
  hsv_to_rgb : float -> float -> float -> result (float * float * float);
  xor : float -> Z -> result float
}.

(** ** [util.py] *)

Definition RGB_CHANNEL_SCALE : float := 1 / 255.
Definition HUE_SCALE : float := 1 / 360.
Definition SCALE_PERCENT : float := 1 / 100.
Definition CONVERT_TURN : float := 360.
Definition CONVERT_GRAD : float := 90 / 100.

Definition clamp (value mn mx : float) : float := max (min value mx) mn.

(** [clamp] on ints, as [get_luminance] calls it. *)
Definition clamp_int (value mn mx : Z) : Z := Z.max (Z.min value mx) mn.

Section Host.
Variable H : host.

(** [float(s)] on the literals the grammars let through (a sign, digits
    and a point): the binary64 the host finds nearest their value. *)
Definition float_ (s : string) : result float :=
  q <- Num.float s ;; Ok (nearest H q).

Definition rgb_to_hsl (r g b : float) : result (float * float * float) :=
  '(h, l, s) <- rgb_to_hls H r g b ;;
  Ok (h, s, l).

Definition hsl_to_rgb (h s l : float) : result (float * float * float) :=
  hls_to_rgb H h l s.

Definition hwb_to_rgb (h w b : float) : result (float * float * float) :=
  let '(w, b) :=
    if 1 <? w + b then
      let norm_factor := 1 / (w + b) in
      (w * norm_factor, b * norm_factor)
    else (w, b) in
  q <- div w (1 - b) ;;
  let s := 1 - q in
  let v := 1 - b in
  '(r, g, b) <- hsv_to_rgb H h s v ;;
  Ok (clamp r 0 1, clamp g 0 1, clamp b 0 1).

Definition rgb_to_hwb (r g b : float) : result (float * float * float) :=
  '(h, s, v) <- rgb_to_hsv H r g b ;;
  let w := (1 - s) * v in
  let b := 1 - v in
  Ok (h, w, b).

Definition hsl_to_hwb (h s l : float) : result (float * float * float) :=
  '(r, g, b) <- hsl_to_rgb h s l ;;
  rgb_to_hwb r g b.

Definition hwb_to_hsl (h w b : float) : result (float * float * float) :=
  '(r, g, b) <- hwb_to_rgb h w b ;;
  rgb_to_hwb r g b.

End Host.

Definition rgb_blend_channel (c1 c2 f : float) : float :=
  clamp (abs (c1 * f + c2 * (1 - f))) 0 1.

Definition percent_blend_channel (c1 c2 f : float) : float :=
  clamp (abs (c1 * f + c2 * (1 - f))) 0 1.

(** [while value > bound: value -= step]. *)
Fixpoint while_above (fuel : nat) (bound step value : float) : result float :=
  match fuel with
  | O => OutOfFuel
  | S fuel' =>
      if bound <? value then while_above fuel' bound step (value - step)
      else Ok value
  end.

(** [while value < bound: value += step]. *)
Fixpoint while_below (fuel : nat) (bound step value : float) : result float :=
  match fuel with
  | O => OutOfFuel
  | S fuel' =>
      if value <? bound then while_below fuel' bound step (value + step)
      else Ok value
  end.

Definition hue_blend_channel (H : host) (fuel : nat) (c1 c2 f : float)
  : result float :=
  let c1 := c1 * 360 in
  let c2 := c2 * 360 in
  let '(c1, c2) :=
    if 180 <? abs (c1 - c2) then
      if c1 <? c2 then (c1 + 360, c2) else (c1, c2 + 360)
    else (c1, c2) in
  let f := if HSL_WORKAROUND H then 1 - f else f in
  let value := abs (c1 * f + c2 * (1 - f)) in
  value <- while_above fuel 360 360 value ;;
  Ok (value * HUE_SCALE).

Definition mix_channel (cf af cb ab : float) : float :=
  clamp (abs (cf * (af * 1) + cb * (ab * 1) * (1 - (af * 1)))) 0 1.

(** [round_int]: [Decimal(dec)] is exact; [quantize] rounds a tie toward
    zero, refuses an infinity and a result of more than 28 digits, and
    lets a NaN through, which [int] then refuses. *)
Definition round_int (dec : float) : result Z :=
  match to_Q dec with
  | Some q =>
      let n := Num.half_down q in
      if (Z.abs n <? 10 ^ 28)%Z then Ok n else Raise InvalidOperation
  | None => if number dec then Raise InvalidOperation else Raise ValueError
  end.

Section Channels.
Variable H : host.

Definition norm_perc_channel (value : string) : result float :=
  x <- float_ H (Str.strip_chars "%" value) ;;
  Ok (clamp x 0 100 * SCALE_PERCENT).

Definition norm_rgb_channel (value : string) : result float :=
  if Str.endswith value "%" then norm_perc_channel value
  else
    x <- float_ H value ;;
    Ok (clamp x 0 255 * RGB_CHANNEL_SCALE).

Definition norm_alpha_channel (value : string) : result float :=
  if Str.endswith value "%" then norm_perc_channel value
  else
    x <- float_ H value ;;
    Ok (clamp x 0 1).

(** [norm_angle] asks for [math], which [util.py] never imports. *)
Definition norm_angle (angle : string) : result float :=
  if Str.endswith angle "turn" then
    x <- float_ H (Str.drop_last 4 angle) ;;
    Ok (x * CONVERT_TURN)
  else if Str.endswith angle "grad" then
    x <- float_ H (Str.drop_last 4 angle) ;;
    Ok (x * CONVERT_GRAD)
  else if Str.endswith angle "rad" then
    math_degrees <- Py.global util_names "math" (degrees H) ;;
    x <- float_ H (Str.drop_last 3 angle) ;;
    Ok (math_degrees x)
  else if Str.endswith angle "grad" then
    x <- float_ H (Str.drop_last 3 angle) ;;
    Ok (x * CONVERT_GRAD)
  else if Str.endswith angle "deg" then
    float_ H (Str.drop_last 3 angle)
  else float_ H angle.

Definition norm_hue_channel (value : string) : result float :=
  x <- norm_angle value ;;
  Ok (clamp x 0 360 * HUE_SCALE).

End Channels.

(** ** Colour objects *)

Record colour : Type := Colour {
  cls : color_space;
  _c1 : float;
  _c2 : float;
  _c3 : float;
  _c0 : float
}.

Inductive value : Type :=
| VColor (c : colour)
| VStr (s : string)
| VSeq (l : list float)
| VNone
| VOther.

Definition is_None (v : value) : bool :=
  match v with VNone => true | _ => false end.

Definition isinstance (obj : colour) (K : color_space) : bool :=
  cls_eqb (cls obj) K.

(** The property setters: every one stores [util.clamp(value, 0.0, 1.0)]
    in its slot. *)
Definition set_c1 (self : colour) (v : float) : colour :=
  Colour (cls self) (clamp v 0 1) (_c2 self) (_c3 self) (_c0 self).
Definition set_c2 (self : colour) (v : float) : colour :=
  Colour (cls self) (_c1 self) (clamp v 0 1) (_c3 self) (_c0 self).
Definition set_c3 (self : colour) (v : float) : colour :=
  Colour (cls self) (_c1 self) (_c2 self) (clamp v 0 1) (_c0 self).
Definition set_c0 (self : colour) (v : float) : colour :=
  Colour (cls self) (_c1 self) (_c2 self) (_c3 self) (clamp v 0 1).

(** A slot written without a setter, as [update_from] and [apply_alpha]
    do. *)
Definition put_c1 (self : colour) (v : float) : colour :=
  Colour (cls self) v (_c2 self) (_c3 self) (_c0 self).
Definition put_c2 (self : colour) (v : float) : colour :=
  Colour (cls self) (_c1 self) v (_c3 self) (_c0 self).
Definition put_c3 (self : colour) (v : float) : colour :=
  Colour (cls self) (_c1 self) (_c2 self) v (_c0 self).

(** A new instance of class [K] whose four properties are assigned, each
    through its setter. *)
Definition assign (K : color_space) (x1 x2 x3 x0 : float) : colour :=
  Colour K (clamp x1 0 1) (clamp x2 0 1) (clamp x3 0 1) (clamp x0 0 1).

Definition getattr (obj : colour) (owners : list color_space) (name : string)
    (slot : colour -> float) : result float :=
  if existsb (cls_eqb (cls obj)) owners then Ok (slot obj)
  else Raise (AttributeError name).

(** The patterns and the default backgrounds are text: they are those of
    the exact layer. *)
Definition RGB_CSS_MATCH_match : string -> bool := rgb.CSS_MATCH_match.
Definition RGB_HEX_MATCH_match : string -> option Re.match_obj :=
  rgb.HEX_MATCH_match.
Definition HSL_CSS_MATCH : Re.re := hsl.CSS_MATCH.
Definition HWB_CSS_MATCH : Re.re := hwb.CSS_MATCH.
Definition DEF_BG (K : color_space) : string := colorcss.DEF_BG K.
Definition rgb_names : list string := rgb.names.
Definition group_text : option string -> string := rgb.group_text.

(** [x op= ...] in a channel method: the four operations. *)
Definition adjust (set : colour -> float -> colour) (get : colour -> float)
    (one : float -> float) (self : colour) (factor : float) (op : operation)
  : colour * float :=
  let self :=
    match op with
    | OP_SCALE => set self (get self + one factor - 1)
    | OP_ADD => set self (get self + (get self * factor))
    | OP_SUB => set self (get self - (get self * factor))
    | _ => set self factor
    end in
  (self, get self).

(** ** [base.py] *)

Module base.

Definition a (self : colour) : float := _c0 self.
Definition set_a : colour -> float -> colour := set_c0.

(** [alpha] compares [op] with [OP_SCALE], a name [base.py] has only
    under [util]. *)
Definition alpha (self : colour) (factor : float) (op : operation)
  : result (colour * float) :=
  OP_SCALE' <- Py.global base_names "OP_SCALE" OP_SCALE ;;
  Ok (adjust set_a a (fun f => 1 * f) self factor op).

End base.

(** ** [rgb.py] *)

Module rgb.

Definition r (self : colour) : float := _c1 self.
Definition g (self : colour) : float := _c2 self.
Definition b (self : colour) : float := _c3 self.
Definition set_r : colour -> float -> colour := set_c1.
Definition set_g : colour -> float -> colour := set_c2.
Definition set_b : colour -> float -> colour := set_c3.

(** [red], [green], [blue]: the scaling is written [+ (1.0 * factor)]. *)
Definition red : colour -> float -> operation -> colour * float :=
  adjust set_r r (fun f => 1 * f).
Definition green : colour -> float -> operation -> colour * float :=
  adjust set_g g (fun f => 1 * f).
Definition blue : colour -> float -> operation -> colour * float :=
  adjust set_b b (fun f => 1 * f).

Section Parsing.
Variable H : host.

Fixpoint norm_channels (i : nat) (cs : list string) : result (list float) :=
  match cs with
  | [] => Ok []
  | c :: cs' =>
      x <- (if Nat.eqb i 3 then norm_alpha_channel H c
            else norm_rgb_channel H c) ;;
      xs <- norm_channels (S i) cs' ;;
      Ok (x :: xs)
  end.

Definition hex_channel (s : string) : result float :=
  n <- Num.int16 s ;;
  Ok (of_Z n * RGB_CHANNEL_SCALE).

Definition _split_channels (color : string) : result (list float) :=
  if Str.startswith color "rgb" then
    let start := if Str.startswith color "rgba" then 5%nat else 4%nat in
    channels <- norm_channels 0
      (RE_CHAN_SPLIT_split (Str.strip (Str.drop_last 1 (Str.from start color)))) ;;
    Ok (if Nat.eqb (List.length channels) 3
        then (channels ++ [1])%list else channels)
  else
    match RGB_HEX_MATCH_match color with
    | None => Raise AssertionError
    | Some m =>
        g1 <- Re.group m 1 ;;
        if Re.truthy g1 then
          c1 <- hex_channel (Str.slice 1 3 color) ;;
          c2 <- hex_channel (Str.slice 3 5 color) ;;
          c3 <- hex_channel (Str.slice 5 7 color) ;;
          g2 <- Re.group m 2 ;;
          c0 <- (if Re.truthy g2
                 then g2' <- Re.group m 2 ;;
                      hex_channel (group_text g2')
                 else Ok 1) ;;
          Ok [c1; c2; c3; c0]
        else
          d1 <- Str.index 1 color ;;
          c1 <- hex_channel (Str.twice d1) ;;
          d2 <- Str.index 2 color ;;
          c2 <- hex_channel (Str.twice d2) ;;
          d3 <- Str.index 3 color ;;
          c3 <- hex_channel (Str.twice d3) ;;
          r' <- Py.global rgb_names "r" 0%nat ;;
          gr <- Re.group m r' ;;
          c0 <- (if Re.truthy gr
                 then g4 <- Re.group m 4 ;;
                      hex_channel (group_text g4)
                 else Ok 1) ;;
          Ok [c1; c2; c3; c0]
    end.

Definition css_match (string : string) : result (option (list float)) :=
  if RGB_CSS_MATCH_match string then
    channels <- _split_channels string ;;
    Ok (Some channels)
  else
    match name2hex H string with
    | Some hex =>
        channels <- _split_channels hex ;;
        Ok (Some channels)
    | None => Ok None
    end.

End Parsing.

End rgb.

(** ** [hsl.py] and [hwb.py] *)

(** The loop of [_split_channels] in both classes: a hue, two percentages
    and, at index 3, an alpha. *)
Fixpoint norm_hue_channels (H : host) (i : nat) (cs : list string)
  : result (list float) :=
  match cs with
  | [] => Ok []
  | c :: cs' =>
      x <- (match i with
            | 0%nat => norm_hue_channel H c
            | 3%nat => norm_alpha_channel H c
            | _ => norm_perc_channel H c
            end) ;;
      xs <- norm_hue_channels H (S i) cs' ;;
      Ok (x :: xs)
  end.

(** [hue]: the same body in [_HSL] and [_HWB]; [fuel] bounds each of its
    two loops.  It returns the hue the loops leave, not the slot. *)
Definition hue (fuel : nat) (self : colour) (deg : float)
  : result (colour * float) :=
  let d := deg * HUE_SCALE in
  let h := _c1 self + d in
  h <- while_above fuel 1 1 h ;;
  h <- while_below fuel 0 1 h ;;
  Ok (set_c1 self h, h).


Module hsl.

Definition h (self : colour) : float := _c1 self.
Definition s (self : colour) : float := _c2 self.
Definition l (self : colour) : float := _c3 self.
Definition set_h : colour -> float -> colour := set_c1.
Definition set_s : colour -> float -> colour := set_c2.
Definition set_l : colour -> float -> colour := set_c3.

(** [saturation], [lightness]: the scaling is written [+ factor]. *)
Definition saturation : colour -> float -> operation -> colour * float :=
  adjust set_s s (fun f => f).
Definition lightness : colour -> float -> operation -> colour * float :=
  adjust set_l l (fun f => f).

Definition _split_channels (H : host) (color : string)
  : result (list float) :=
  let start := if Str.startswith color "hsla" then 5%nat else 4%nat in
  channels <- norm_hue_channels H 0
    (RE_CHAN_SPLIT_split (Str.strip (Str.drop_last 1 (Str.from start color)))) ;;
  Ok (if Nat.eqb (List.length channels) 3
      then (channels ++ [1])%list else channels).

Definition css_match (H : host) (string : string)
  : result (option (list float)) :=
  if Re.match_anchored HSL_CSS_MATCH string then
    channels <- _split_channels H string ;;
    Ok (Some channels)
  else Ok None.

End hsl.

Module hwb.

Definition h (self : colour) : float := _c1 self.
Definition w (self : colour) : float := _c2 self.
Definition b (self : colour) : float := _c3 self.
Definition set_h : colour -> float -> colour := set_c1.
Definition set_w : colour -> float -> colour := set_c2.
Definition set_b : colour -> float -> colour := set_c3.

Definition whiteness : colour -> float -> operation -> colour * float :=
  adjust set_w w (fun f => f).
Definition blackness : colour -> float -> operation -> colour * float :=
  adjust set_b b (fun f => f).

Definition _split_channels (H : host) (color : string)
  : result (list float) :=
  let start := 4%nat in
  channels <- norm_hue_channels H 0
    (RE_CHAN_SPLIT_split (Str.strip (Str.drop_last 1 (Str.from start color)))) ;;
  Ok (if Nat.eqb (List.length channels) 3
      then (channels ++ [1])%list else channels).

Definition css_match (H : host) (string : string)
  : result (option (list float)) :=
  if Re.match_anchored HWB_CSS_MATCH string then
    channels <- _split_channels H string ;;
    Ok (Some channels)
  else Ok None.

End hwb.

(** ** [__init__.py] *)

(** [self.x1, self.x2, self.x3, self.a = values]. *)
Definition unpack4 (K : color_space) (values : list float) : result colour :=
  match values with
  | [x1; x2; x3; x0] => Ok (assign K x1 x2 x3 x0)
  | _ => Raise ValueError
  end.

Definition from_sequence (K : color_space) (color : list float)
  : result colour :=
  let n := List.length color in
  if negb ((3 <=? n)%nat && (n <=? 4)%nat) then Raise ValueError
  else
    match color with
    | x1 :: x2 :: x3 :: rest =>
        Ok (assign K (clamp x1 0 1) (clamp x2 0 1) (clamp x3 0 1)
                  (match rest with
                   | [] => 1
                   | x0 :: _ => clamp x0 0 1
                   end))
    | _ => Raise IndexError
    end.

Definition from_string (K : color_space) (DEF_BG : string)
    (css_match : string -> result (option (list float))) (color : string)
  : result colour :=
  let color := if is_None (VStr color) then DEF_BG else color in
  values <- css_match color ;;
  match values with
  | None => Raise ValueError
  | Some values => unpack4 K values
  end.

Section Classes.
Variable H : host.

Definition RGB (color : value) : result colour :=
  match color with
  | VColor c =>
      match cls c with
      | CS_RGB => Ok (assign CS_RGB (rgb.r c) (rgb.g c) (rgb.b c) (base.a c))
      | CS_HSL =>
          '(r, g, b) <- hsl_to_rgb H (hsl.h c) (hsl.s c) (hsl.l c) ;;
          Ok (assign CS_RGB r g b (base.a c))
      | CS_HWB =>
          '(r, g, b) <- hwb_to_rgb H (hwb.h c) (hwb.w c) (hwb.b c) ;;
          Ok (assign CS_RGB r g b (base.a c))
      end
  | VStr s => from_string CS_RGB (DEF_BG CS_RGB) (rgb.css_match H) s
  | VSeq l => from_sequence CS_RGB l
  | _ => Raise TypeError
  end.

Definition HSL (color : value) : result colour :=
  match color with
  | VColor c =>
      match cls c with
      | CS_HSL => Ok (assign CS_HSL (hsl.h c) (hsl.s c) (hsl.l c) (base.a c))
      | CS_RGB =>
          '(h, s, l) <- rgb_to_hsl H (rgb.r c) (rgb.g c) (rgb.b c) ;;
          Ok (assign CS_HSL h s l (base.a c))
      | CS_HWB =>
          '(h, s, l) <- hwb_to_hsl H (hwb.h c) (hwb.w c) (hwb.b c) ;;
          Ok (assign CS_HSL h s l (base.a c))
      end
  | VStr s => from_string CS_HSL (DEF_BG CS_HSL) (hsl.css_match H) s
  | VSeq l => from_sequence CS_HSL l
  | _ => Raise TypeError
  end.

Definition HWB (color : value) : result colour :=
  match color with
  | VColor c =>
      match cls c with
      | CS_HWB => Ok (assign CS_HWB (hwb.h c) (hwb.w c) (hwb.b c) (base.a c))
      | CS_RGB =>
          '(h, w, b) <- rgb_to_hwb H (rgb.r c) (rgb.g c) (rgb.b c) ;;
          Ok (assign CS_HWB h w b (base.a c))
      | CS_HSL =>
          '(h, w, b) <- hsl_to_hwb H (hsl.h c) (hsl.s c) (hsl.l c) ;;
          Ok (assign CS_HWB h w b (base.a c))
      end
  | VStr s => from_string CS_HWB (DEF_BG CS_HWB) (hwb.css_match H) s
  | VSeq l => from_sequence CS_HWB l
  | _ => Raise TypeError
  end.

(** [type(self)(x)]. *)
Definition construct (K : color_space) (x : value) : result colour :=
  match K with
  | CS_RGB => RGB x
  | CS_HSL => HSL x
  | CS_HWB => HWB x
  end.

Definition css_color (string : string) : result colour :=
  v <- rgb.css_match H string ;;
  match v with
  | Some value => RGB (VSeq value)
  | None =>
      v <- hsl.css_match H string ;;
      match v with
      | Some value => HSL (VSeq value)
      | None =>
          v <- hwb.css_match H string ;;
          match v with
          | Some value => HWB (VSeq value)
          | None => Raise ValueError
          end
      end
  end.

(** [same] tells whether [obj] is the very object [self]. *)
Definition update_from (self : colour) (same : bool) (obj : colour)
  : result colour :=
  if same then Ok self
  else
    obj <- (if negb (isinstance obj (cls self))
            then construct (cls self) (VColor obj) else Ok obj) ;;
    let self := put_c1 self (_c1 obj) in
    let self := put_c2 self (_c2 obj) in
    let self := put_c3 self (_c3 obj) in
    Ok (base.set_a self (base.a obj)).

Definition apply_alpha (self : colour) (background : value) : result colour :=
  background <-
    (match background with
     | VNone => construct (cls self) (VStr (DEF_BG (cls self)))
     | VColor bg =>
         if negb (isinstance bg (cls self))
         then construct (cls self) background else Ok bg
     | _ => construct (cls self) background
     end) ;;
  if base.a self <? 1 then
    let self := put_c1 self
      (mix_channel (_c1 self) (base.a self) (_c1 background) (base.a background)) in
    let self := put_c2 self
      (mix_channel (_c2 self) (base.a self) (_c2 background) (base.a background)) in
    let self := put_c3 self
      (mix_channel (_c3 self) (base.a self) (_c3 background) (base.a background)) in
    Ok (base.set_a self 1)
  else Ok self.

(** [get_luminance] returns an int. *)
Definition get_luminance (self : colour) : result Z :=
  rgb <- RGB (VColor self) ;;
  n <- round_int (0.299 * (rgb.r rgb * 255) + 0.587 * (rgb.g rgb * 255)
                  + 0.114 * (rgb.b rgb * 255)) ;;
  Ok (clamp_int n 0 255).

Definition colorize (self : colour) (deg : float) : result colour :=
  hsl <- HSL (VColor self) ;;
  let hsl := hsl.set_h hsl (deg * HUE_SCALE) in
  update_from self false hsl.

(** [contrast] calls [clamp] without the prefix [util.]. *)
Definition contrast (self : colour) (factor : float) : result colour :=
  rgb <- RGB (VColor self) ;;
  clamp' <- Py.global init_names "clamp" clamp ;;
  let f := (clamp' factor 0 2 - 1) * 255 in
  f <- div (259 * (f + 255)) (255 * (259 - f)) ;;
  let rgb := rgb.set_r rgb
    (clamp ((f * ((rgb.r rgb * 255) - 128)) + 128) 0 255 * RGB_CHANNEL_SCALE) in
  let rgb := rgb.set_g rgb
    (clamp ((f * ((rgb.g rgb * 255) - 128)) + 128) 0 255 * RGB_CHANNEL_SCALE) in
  let rgb := rgb.set_b rgb
    (clamp ((f * ((rgb.b rgb * 255) - 128)) + 128) 0 255 * RGB_CHANNEL_SCALE) in
  update_from self false rgb.

(** [rgb.r ^= 0xFF] and so on: each [^] is the host's. *)
Definition invert (self : colour) : result colour :=
  rgb <- RGB (VColor self) ;;
  r <- xor H (rgb.r rgb) 255 ;;
  let rgb := rgb.set_r rgb r in
  g <- xor H (rgb.g rgb) 255 ;;
  let rgb := rgb.set_g rgb g in
  b <- xor H (rgb.b rgb) 255 ;;
  let rgb := rgb.set_b rgb b in
  update_from self false rgb.

Definition grayscale (self : colour) : result colour :=
  rgb <- RGB (VColor self) ;;
  luminance <- get_luminance self ;;
  let rgb := rgb.set_r rgb (of_Z luminance) in
  let rgb := rgb.set_g rgb (of_Z luminance) in
  let rgb := rgb.set_b rgb (of_Z luminance) in
  update_from self false rgb.

(** [sepia] reads [rgb.r] after it has written it, and so on. *)
Definition sepia (self : colour) : result colour :=
  rgb <- RGB (VColor self) ;;
  let rgb := rgb.set_r rgb
    ((rgb.r rgb * 0.393) + (rgb.g rgb * 0.769) + (rgb.b rgb * 0.189)) in
  let rgb := rgb.set_g rgb
    ((rgb.r rgb * 0.349) + (rgb.g rgb * 0.686) + (rgb.b rgb * 0.168)) in
  let rgb := rgb.set_b rgb
    ((rgb.r rgb * 0.272) + (rgb.g rgb * 0.534) + (rgb.b rgb * 0.131)) in
  update_from self false rgb.

Definition _get_overage (c : float) : float * float :=
  if c <? 0 then (0 + c, 0)
  else if 255 <? c then (c - 255, 255)
  else (0, c).

Definition _distribute_overage (c : float * float * float) (o : float)
    (s : list string) : result (float * float * float) :=
  let channels := List.length s in
  if Nat.eqb channels 0 then Ok c
  else
    parts <- div o (of_Z (Z.of_nat (List.length s))) ;;
    let '(c0, c1, c2) := c in
    Ok (if mem "r" s && mem "g" s then (c0 + parts, c1 + parts, c2)
        else if mem "r" s && mem "b" s then (c0 + parts, c1, c2 + parts)
        else if mem "g" s && mem "b" s then (c0, c1 + parts, c2 + parts)
        else if mem "r" s then (c0 + parts, c1, c2)
        else if mem "g" s then (c0, c1 + parts, c2)
        else (c0, c1, c2 + parts)).

Definition component (c : float * float * float) (i : nat) : float :=
  let '(c0, c1, c2) := c in
  match i with 0%nat => c0 | 1%nat => c1 | _ => c2 end.

Definition set_component (c : float * float * float) (i : nat) (x : float)
  : float * float * float :=
  let '(c0, c1, c2) := c in
  match i with
  | 0%nat => (x, c1, c2)
  | 1%nat => (c0, x, c2)
  | _ => (c0, c1, x)
  end.

(** The [for] loop of [brightness]; [if overage] is false on a zero
    alone. *)
Fixpoint brightness_loop (todo : list string) (count : nat)
    (slots : list string) (components : float * float * float)
  : result (float * float * float) :=
  match todo with
  | [] => Ok components
  | c :: todo' =>
      let '(overage, x) := _get_overage (component components count) in
      let components := set_component components count x in
      '(slots, components) <-
        (if negb (overage =? 0) then
           let slots := filter (fun n => negb (String.eqb n c)) slots in
           components <- _distribute_overage components overage slots ;;
           Ok (slots, components)
         else Ok (slots, components)) ;;
      brightness_loop todo' (S count) slots components
  end.

(** [brightness] calls [clamp] without the prefix [util.]. *)
Definition brightness (self : colour) (factor : float) : result colour :=
  rgb <- RGB (VColor self) ;;
  let channels := ["r"; "g"; "b"]%string in
  clamp' <- Py.global init_names "clamp" clamp ;;
  lum <- get_luminance rgb ;;
  let total_lumes := clamp' (of_Z lum + (1 * factor) - 1) 0 1 in
  rgb <-
    (if total_lumes =? 1 then
       Ok (rgb.set_b (rgb.set_g (rgb.set_r rgb 1) 1) 1)
     else if total_lumes =? 0 then
       Ok (rgb.set_b (rgb.set_g (rgb.set_r rgb 0) 0) 0)
     else
       let pts := total_lumes - 0.299 * rgb.r rgb
                  - 0.587 * rgb.g rgb - 0.114 * rgb.b rgb in
       let slots := channels in
       let components := (rgb.r rgb + pts, rgb.g rgb + pts, rgb.b rgb + pts) in
       components <- brightness_loop channels 0 slots components ;;
       let rgb := rgb.set_r rgb (component components 0) in
       let rgb := rgb.set_g rgb (component components 1) in
       let rgb := rgb.set_b rgb (component components 2) in
       Ok rgb) ;;
  update_from self false rgb.

Definition coerce (K : color_space) (make : value -> result colour)
    (color : value) : result colour :=
  match color with
  | VColor c => if isinstance c K then Ok c else make color
  | _ => make color
  end.

(** [blend] multiplies by [SCALE_PERCENT] without the prefix [util.]. *)
Definition blend (fuel : nat) (self : colour) (color : value)
    (percent : float) (alpha : bool) (color_space : option util.color_space)
  : result colour :=
  SCALE_PERCENT' <- Py.global init_names "SCALE_PERCENT" SCALE_PERCENT ;;
  let factor := clamp (clamp percent 0 100 * SCALE_PERCENT') 0 1 in
  '(this, color) <-
    (match color_space with
     | Some CS_RGB =>
         color <- coerce CS_RGB RGB color ;;
         this <- (if negb (isinstance self CS_RGB)
                  then RGB (VColor self) else Ok self) ;;
         let this := rgb.set_r this
           (rgb_blend_channel (rgb.r this) (rgb.r color) factor) in
         let this := rgb.set_g this
           (rgb_blend_channel (rgb.g this) (rgb.g color) factor) in
         let this := rgb.set_b this
           (rgb_blend_channel (rgb.b this) (rgb.b color) factor) in
         Ok (this, color)
     | Some CS_HSL =>
         color <- coerce CS_HSL HSL color ;;
         this <- (if negb (isinstance self CS_HSL)
                  then HSL (VColor self) else Ok self) ;;
         h <- hue_blend_channel H fuel (hsl.h this) (hsl.h color) factor ;;
         let this := hsl.set_h this h in
         let this := hsl.set_l this
           (percent_blend_channel (hsl.l this) (hsl.l color) factor) in
         let this := hsl.set_s this
           (percent_blend_channel (hsl.s this) (hsl.s color) factor) in
         Ok (this, color)
     | Some CS_HWB =>
         color <- coerce CS_HWB HSL color ;;
         this <- (if negb (isinstance self CS_HWB)
                  then HWB (VColor self) else Ok self) ;;
         h <- hue_blend_channel H fuel (hwb.h this) (hwb.h color) factor ;;
         let this := hwb.set_h this h in
         color_w <- getattr color [CS_HWB] "w" hwb.w ;;
         let this := hwb.set_w this
           (percent_blend_channel (hwb.w this) color_w factor) in
         color_b <- getattr color [CS_RGB; CS_HWB] "b" hwb.b ;;
         let this := hwb.set_b this
           (percent_blend_channel (hwb.b this) color_b factor) in
         Ok (this, color)
     | None => Raise ValueError
     end) ;;
  let this :=
    if alpha
    then base.set_a this (rgb_blend_channel (base.a this) (base.a color) factor)
    else this in
  if isinstance self (cls this)
  then update_from this true this
  else update_from self false this.

End Classes.

(** ** The public ways to change a colour

    [SetAttr] is an assignment [self.name = v]: it goes through the setter
    when the name is a property of the class of [self] and straight into
    the slot when the name is that of a slot; with any other name it
    leaves the four slots alone.  The other constructors are the mutating
    methods; a method that the class of [self] lacks is an
    [AttributeError].  [UpdateFrom] is [update_from] handed another
    object, which it converts when it is no colour of the class of [self];
    [UpdateFromSelf] is [update_from] handed [self]. *)

Inductive mutation : Type :=
| SetAttr (name : string) (v : float)
| Alpha (factor : float) (op : operation)
| Red (factor : float) (op : operation)
| Green (factor : float) (op : operation)
| Blue (factor : float) (op : operation)
| Hue (deg : float)
| Saturation (factor : float) (op : operation)
| Lightness (factor : float) (op : operation)
| Whiteness (factor : float) (op : operation)
| Blackness (factor : float) (op : operation)
| UpdateFrom (obj : value)
| UpdateFromSelf
| ApplyAlpha (background : value)
| Colorize (deg : float)
| Contrast (factor : float)
| Invert
| Grayscale
| Sepia
| Brightness (factor : float)
| Blend (color : value) (percent : float) (alpha : bool)
        (color_space : option color_space).

(** A name of the public interface: one with no underscore in front. *)
Definition is_public (name : string) : bool :=
  negb (Str.startswith name "_").

Definition setattr (self : colour) (name : string) (v : float) : colour :=
  if String.eqb name "_c1" then put_c1 self v
  else if String.eqb name "_c2" then put_c2 self v
  else if String.eqb name "_c3" then put_c3 self v
  else if String.eqb name "_c0" then
    Colour (cls self) (_c1 self) (_c2 self) (_c3 self) v
  else if String.eqb name "a" then base.set_a self v
  else
    match cls self with
    | CS_RGB =>
        if String.eqb name "r" then rgb.set_r self v
        else if String.eqb name "g" then rgb.set_g self v
        else if String.eqb name "b" then rgb.set_b self v
        else self
    | CS_HSL =>
        if String.eqb name "h" then hsl.set_h self v
        else if String.eqb name "s" then hsl.set_s self v
        else if String.eqb name "l" then hsl.set_l self v
        else self
    | CS_HWB =>
        if String.eqb name "h" then hwb.set_h self v
        else if String.eqb name "w" then hwb.set_w self v
        else if String.eqb name "b" then hwb.set_b self v
        else self
    end.

Definition method (self : colour) (owners : list color_space) (name : string)
    (body : result colour) : result colour :=
  if existsb (cls_eqb (cls self)) owners then body
  else Raise (AttributeError name).

Definition run (H : host) (fuel : nat) (m : mutation) (self : colour)
  : result colour :=
  match m with
  | SetAttr name v => Ok (setattr self name v)
  | Alpha f op => '(self', _) <- base.alpha self f op ;; Ok self'
  | Red f op => method self [CS_RGB] "red" (Ok (fst (rgb.red self f op)))
  | Green f op => method self [CS_RGB] "green" (Ok (fst (rgb.green self f op)))
  | Blue f op => method self [CS_RGB] "blue" (Ok (fst (rgb.blue self f op)))
  | Hue deg =>
      method self [CS_HSL; CS_HWB] "hue"
        ('(self', _) <- hue fuel self deg ;; Ok self')
  | Saturation f op =>
      method self [CS_HSL] "saturation" (Ok (fst (hsl.saturation self f op)))
  | Lightness f op =>
      method self [CS_HSL] "lightness" (Ok (fst (hsl.lightness self f op)))
  | Whiteness f op =>
      method self [CS_HWB] "whiteness" (Ok (fst (hwb.whiteness self f op)))
  | Blackness f op =>
      method self [CS_HWB] "blackness" (Ok (fst (hwb.blackness self f op)))
  | UpdateFrom obj =>
      match obj with
      | VColor c => update_from H self false c
      | _ =>
          c <- construct H (cls self) obj ;;
          update_from H self false c
      end
  | UpdateFromSelf => update_from H self true self
  | ApplyAlpha background => apply_alpha H self background
  | Colorize deg => colorize H self deg
  | Contrast f => contrast H self f
  | Invert => invert H self
  | Grayscale => grayscale H self
  | Sepia => sepia H self
  | Brightness f => brightness H self f
  | Blend color percent alpha cs => blend H fuel self color percent alpha cs
  end.

(** ** Channels in the unit interval *)

Definition in_unit (x : float) : Prop := (0 <=? x) = true /\ (x <=? 1) = true.

(** What a slot can hold: a number of the unit interval, or a NaN. *)
Definition ranged (x : float) : Prop := in_unit x \/ number x = false.

Definition wf (c : colour) : Prop :=
  ranged (_c1 c) /\ ranged (_c2 c) /\ ranged (_c3 c) /\ ranged (_c0 c).

(** What a caller of the public interface hands a mutation: a public
    name to assign to, and colours the package built. *)
Definition args_wf (m : mutation) : Prop :=
  match m with
  | SetAttr name _ => is_public name = true
  | UpdateFrom (VColor obj) => wf obj
  | _ => True
  end.
End F64.

(** ** The rank of a binary64 number

    Away from NaN the comparison of two numbers is the lexicographic
    comparison of their ranks: the class of the number, then the exponent
    and the mantissa, negated below zero. *)

Definition rank (x : spec_float) : Z * Z * Z :=
  match x with
  | S754_nan => (0, 0, 0)
  | S754_infinity true => (-2, 0, 0)
  | S754_infinity false => (2, 0, 0)
  | S754_zero _ => (0, 0, 0)
  | S754_finite true m e => (-1, - e, Zneg m)
  | S754_finite false m e => (1, e, Zpos m)
  end%Z.

Definition lex3 (a b : Z * Z * Z) : comparison :=
  let '(a1, a2, a3) := a in
  let '(b1, b2, b3) := b in
  match (a1 ?= b1)%Z with
  | Eq => match (a2 ?= b2)%Z with
          | Eq => (a3 ?= b3)%Z
          | c => c
          end
  | c => c
  end.

(** * Facts and claims on the exact layer *)

(** ** Facts about the numeric helpers *)

Ltac unfold_num :=
  unfold clamp, Num.max, Num.min, Num.gtb, Num.ltb, Num.leb in *.

Ltac split_cmp :=
  repeat match goal with
         | |- context [Qlt_le_dec ?a ?b] => destruct (Qlt_le_dec a b)
         | H : context [Qlt_le_dec ?a ?b] |- _ => destruct (Qlt_le_dec a b)
         end.

Lemma clamp_in_range (v mn mx : Q) :
  mn <= mx -> mn <= clamp v mn mx /\ clamp v mn mx <= mx.
Proof.
  intros Hle. unfold_num. split_cmp; split; lra.
Qed.

Lemma clamp_unit (v : Q) : in_unit (clamp v 0 1).
Proof. apply clamp_in_range. lra. Qed.

Lemma clamp_id (v mn mx : Q) : mn <= v -> v <= mx -> clamp v mn mx = v.
Proof.
  intros H1 H2. unfold_num. split_cmp; try reflexivity; lra.
Qed.

Lemma clamp_idem (v : Q) : clamp (clamp v 0 1) 0 1 = clamp v 0 1.
Proof.
  destruct (clamp_unit v) as [H1 H2]. now apply clamp_id.
Qed.

Ltac wf_tac :=
  unfold wf in *; simpl in *; intuition (auto using clamp_unit).

Lemma assign_wf (K : color_space) (x1 x2 x3 x0 : Q) : wf (assign K x1 x2 x3 x0).
Proof. wf_tac. Qed.

Create HintDb colour.
#[local] Hint Resolve clamp_unit assign_wf : colour.

(** ** The embedding at work on paths that do return *)

Example round_int_breaks_ties_downward : round_int (255 # 2) = 127%Z.
Proof. reflexivity. Qed.

Example parse_hsl_green :
  exists c rgb,
    css_color bare_host "hsl(120deg 100% 50%)" = Ok c
    /\ same_colour c (Colour CS_HSL (1 # 3) 1 (1 # 2) 1)
    /\ RGB bare_host (VColor c) = Ok rgb
    /\ same_colour rgb (Colour CS_RGB 0 1 0 1).
Proof.
  do 2 eexists. split; [vm_compute; reflexivity|].
  split; [unfold same_colour; simpl; repeat split; reflexivity|].
  split; [vm_compute; reflexivity|].
  unfold same_colour. simpl. repeat split; reflexivity.
Qed.

Example rgb_commas_and_spaces_parse_alike :
  css_color bare_host "rgba(255, 0, 0, .5)"
  = css_color bare_host "rgb(255 0 0 / 0.5)".
Proof. vm_compute. reflexivity. Qed.

Example to_css_functional_form :
  rgb.to_css bare_host (Colour CS_RGB 1 0 (1 # 2) 1) rgb.defaults
  = Ok "rgb(255 0 127)"%string.
Proof. vm_compute. reflexivity. Qed.

Example radians_need_math :
  norm_angle bare_host "1rad" = Raise (NameError "math").
Proof. reflexivity. Qed.

Example unknown_text_is_no_colour :
  css_color bare_host "not a colour" = Raise ValueError.
Proof. vm_compute. reflexivity. Qed.

(** ** Setters and constructors keep channels in the unit interval *)

Lemma set_c1_wf (self : colour) (v : Q) : wf self -> wf (set_c1 self v).
Proof. wf_tac. Qed.

Lemma set_c2_wf (self : colour) (v : Q) : wf self -> wf (set_c2 self v).
Proof. wf_tac. Qed.

Lemma set_c3_wf (self : colour) (v : Q) : wf self -> wf (set_c3 self v).
Proof. wf_tac. Qed.

Lemma set_c0_wf (self : colour) (v : Q) : wf self -> wf (set_c0 self v).
Proof. wf_tac. Qed.

#[local] Hint Resolve set_c1_wf set_c2_wf set_c3_wf set_c0_wf : colour.

(** Inversion of a successful [bind]. *)
Lemma bind_Ok {A B} (m : result A) (k : A -> result B) (b : B) :
  Py.bind m k = Ok b -> exists a, m = Ok a /\ k a = Ok b.
Proof.
  destruct m; simpl; intros E; try discriminate. eauto.
Qed.

Ltac inv_bind :=
  repeat match goal with
         | E : Py.bind ?m ?k = Ok _ |- _ =>
             let a := fresh "a" in
             let Ea := fresh "Ea" in
             apply bind_Ok in E; destruct E as (a & Ea & E)
         | E : Ok _ = Ok _ |- _ => injection E as E
         | E : Raise _ = Ok _ |- _ => discriminate E
         | E : OutOfFuel = Ok _ |- _ => discriminate E
         | E : (let '(_, _) := ?p in _) = Ok _ |- _ => destruct p
         end.

Lemma unpack4_wf (K : color_space) (l : list Q) (c : colour) :
  unpack4 K l = Ok c -> wf c.
Proof.
  unfold unpack4. destruct l as [|x1 [|x2 [|x3 [|x0 [|]]]]]; intros E;
    inv_bind; subst; auto with colour.
Qed.

Lemma from_string_wf K D m s (c : colour) :
  from_string K D m s = Ok c -> wf c.
Proof.
  unfold from_string. intros E. inv_bind.
  destruct a; try discriminate. eauto using unpack4_wf.
Qed.

Lemma from_sequence_wf K l (c : colour) :
  from_sequence K l = Ok c -> wf c.
Proof.
  unfold from_sequence. intros E.
  destruct (negb _); try discriminate.
  destruct l as [|x1 [|x2 [|x3 rest]]]; inv_bind; subst; auto with colour.
Qed.

Lemma construct_wf (H : host) (K : color_space) (x : value) (c : colour) :
  construct H K x = Ok c -> wf c.
Proof.
  destruct K, x as [c0| | | |]; simpl; intros E; try discriminate;
    eauto using from_string_wf, from_sequence_wf;
    destruct (cls c0); inv_bind;
    repeat match goal with
           | E : (let '(_, _) := ?p in _) = _ |- _ => destruct p
           | p : (_ * _)%type |- _ => destruct p
           end; inv_bind; subst; auto with colour.
Qed.


(** ** Claims about construction and conversion *)

(** C10.  Constructing [RGB], [HSL] or [HWB] from [None] (the default of
    the parameter) raises a type error; the test that would substitute the
    default background sits in the string branch, where it never fires: a
    string argument is matched as it is. *)
Theorem construct_None_raises_TypeError :
  forall (H : host),
    RGB H VNone = Raise TypeError
    /\ HSL H VNone = Raise TypeError
    /\ HWB H VNone = Raise TypeError
    /\ (forall K, construct H K VNone = Raise TypeError)
    /\ (forall K D m s,
          from_string K D m s =
          (values <- m s ;;
           match values with
           | None => Raise ValueError
           | Some values => unpack4 K values
           end)).
Proof.
  intros H. repeat split; try reflexivity.
  intros K. destruct K; reflexivity.
Qed.

(** C3.  [HSL] built from an [HWB] colour does not get the HSL channels of
    that colour: [hwb_to_hsl] ends with [rgb_to_hwb].  For pure red,
    [HWB(0, 0, 0)], the object holds saturation 0 and lightness 0 (black),
    whereas [rgb_to_hsl] after [hwb_to_rgb] gives saturation 1 and
    lightness 1/2. *)
Theorem HSL_from_HWB_holds_hwb_channels :
  forall (H : host),
    (forall h w b,
        hwb_to_hsl h w b = ('(r, g, b') <- hwb_to_rgb h w b ;; rgb_to_hwb r g b'))
    /\ exists c h s l,
        HSL H (VColor (Colour CS_HWB 0 0 0 1)) = Ok c
        /\ ('(r, g, b) <- hwb_to_rgb 0 0 0 ;; rgb_to_hsl r g b) = Ok (h, s, l)
        /\ hsl.h c == 0 /\ hsl.s c == 0 /\ hsl.l c == 0
        /\ h == 0 /\ s == 1 /\ l == 1 # 2.
Proof.
  intros H. split; [reflexivity|].
  do 4 eexists. split; [vm_compute; reflexivity|].
  split; [vm_compute; reflexivity|].
  simpl. repeat split; reflexivity.
Qed.

(** C6.  [hwb_to_rgb] divides by [1.0 - b] with no guard: for whiteness 0
    and blackness 1 (black, whatever the hue) it raises
    [ZeroDivisionError] instead of returning an RGB triple. *)
Theorem hwb_to_rgb_black_raises :
  forall h : Q, hwb_to_rgb h 0 1 = Raise ZeroDivisionError.
Proof. intros h. reflexivity. Qed.

(** ** Claims about the composite operations *)

(** C4.  [blend] never returns: its first statement reads the name
    [SCALE_PERCENT], which [__init__.py] does not bind, so every call
    raises [NameError], whatever the colours, the percent, the alpha flag
    and the colour space. *)
Theorem blend_raises_NameError :
  forall (H : host) (fuel : nat) (self : colour) (color : value)
         (percent : Q) (alpha : bool) (cs : option color_space),
    blend H fuel self color percent alpha cs
    = Raise (NameError "SCALE_PERCENT").
Proof. reflexivity. Qed.

(** C5.  [brightness] never returns: after building its RGB copy it reads
    the name [clamp], which [__init__.py] does not bind.  On an RGB colour
    the call raises [NameError]; on any colour it fails to return. *)
Theorem brightness_raises_NameError :
  forall (H : host) (factor : Q),
    (forall r g b a,
        brightness H (Colour CS_RGB r g b a) factor
        = Raise (NameError "clamp"))
    /\ (forall self, Py.returns (brightness H self factor) = false).
Proof.
  intros H factor. split; [reflexivity|].
  intros self. unfold brightness.
  destruct (RGB H (VColor self)); reflexivity.
Qed.

(** Where [hwb_to_rgb] fails on the unit cube: at whiteness 0 and
    blackness 1, and nowhere else; and what the normalisation does. *)
Lemma hwb_normalisation_sums_to_one (w b : Q) :
  1 < w + b ->
  let norm_factor := 1 / (w + b) in
  w * norm_factor + b * norm_factor == 1.
Proof. intros Hgt. simpl. field. lra. Qed.

Lemma hwb_to_rgb_fails_iff_black (h w b : Q) :
  in_unit w -> in_unit b ->
  (Py.returns (hwb_to_rgb h w b) = false <-> (w == 0 /\ b == 1)).
Proof.
  intros [Hw0 Hw1] [Hb0 Hb1]. unfold hwb_to_rgb, Num.gtb, Num.ltb.
  destruct (Qlt_le_dec 1 (w + b)) as [Hgt|Hle].
  - unfold Num.div, Num.eqb.
    destruct (Qeq_bool (1 - b * (1 / (w + b))) 0) eqn:E.
    + apply Qeq_bool_iff in E.
      assert (Hb : b * (1 / (w + b)) * (w + b) == b) by (field; lra).
      assert (Hone : b * (1 / (w + b)) == 1) by lra.
      rewrite Hone in Hb. lra.
    + simpl. destruct (colorsys.hsv_to_rgb _ _ _) as [[r g] b'].
      simpl. split; [discriminate|]. intros [Hw Hb]. lra.
  - unfold Num.div, Num.eqb.
    destruct (Qeq_bool (1 - b) 0) eqn:E.
    + apply Qeq_bool_iff in E. simpl. split; [|reflexivity].
      intros _. split; lra.
    + simpl. destruct (colorsys.hsv_to_rgb _ _ _) as [[r g] b'].
      simpl. split; [discriminate|]. intros [Hw Hb].
      apply Qeq_bool_neq in E. lra.
Qed.

(** ** Claims about parsing and serialising *)

(** What [_get_hex] and [_get_hexa] write starts with [#] and a
    hexadecimal digit, a zero or a sign; [RE_COMPRESS] wants an opening
    brace there, so it matches none of it. *)
Lemma full_Never (l : list ascii) : Re.full Re.Never l = false.
Proof. induction l; simpl; auto. Qed.

Lemma chars_of_chars (l : list ascii) : Str.chars (Str.of_chars l) = l.
Proof. apply list_ascii_of_string_of_list_ascii. Qed.

Lemma chars_app (s t : string) :
  Str.chars (s ++ t)%string = (Str.chars s ++ Str.chars t)%list.
Proof. induction s; simpl; [reflexivity|]. now f_equal. Qed.

Lemma digit_not_brace (d : Z) : (0 <= d < 16)%Z -> not_brace (Num.digit d).
Proof.
  intros Hd.
  assert (E : In d [0;1;2;3;4;5;6;7;8;9;10;11;12;13;14;15]%Z).
  { simpl. lia. }
  simpl in E. unfold not_brace.
  repeat (destruct E as [E|E]; [subst d; reflexivity|]). contradiction.
Qed.

Lemma digits_fuel_head (fuel : nat) (n : Z) (acc : list ascii) :
  exists d l,
    (0 <= d < 16)%Z /\ Num.digits_fuel (S fuel) 16 n acc = Num.digit d :: l.
Proof.
  revert n acc. induction fuel as [|fuel IH]; intros n acc.
  - simpl. exists (n mod 16)%Z. eexists. split; [apply Z.mod_pos_bound; lia|].
    destruct (n / 16 =? 0)%Z; reflexivity.
  - change (Num.digits_fuel (S (S fuel)) 16 n acc) with
      (let acc' := Num.digit (n mod 16) :: acc in
       if (n / 16 =? 0)%Z then acc'
       else Num.digits_fuel (S fuel) 16 (n / 16) acc').
    simpl. destruct (n / 16 =? 0)%Z.
    + exists (n mod 16)%Z. eexists.
      split; [apply Z.mod_pos_bound; lia | reflexivity].
    + apply IH.
Qed.

Lemma zeros_head (k : nat) (l : list ascii) (c : ascii) :
  not_brace c ->
  exists c' l', (Num.zeros k ++ c :: l)%list = c' :: l' /\ not_brace c'.
Proof.
  intros Hc. destruct k; simpl; do 2 eexists; split; try reflexivity; auto.
Qed.

Lemma fmt_02X_head (n : Z) :
  exists c l, Str.chars (Num.fmt_02X n) = c :: l /\ not_brace c.
Proof.
  unfold Num.fmt_02X. rewrite chars_of_chars.
  unfold Num.sign_prefix. destruct (n <? 0)%Z.
  - do 2 eexists. split; reflexivity.
  - destruct (digits_fuel_head (Z.to_nat (Z.log2 (Z.abs n))) (Z.abs n) [])
      as (d & l & Hd & E).
    unfold Num.digits. rewrite E. rewrite app_nil_l.
    apply zeros_head. now apply digit_not_brace.
Qed.

Lemma deriv_cat_dead (r s : Re.re) (c : ascii) :
  Re.nullable r = false -> Re.deriv c r = Re.Never ->
  Re.deriv c (Re.Cat r s) = Re.Never.
Proof. intros Hn Hd. simpl. rewrite Hn, Hd. reflexivity. Qed.

Lemma RE_COMPRESS_rejects (c : ascii) (l : list ascii) :
  not_brace c ->
  Re.full (Re.Cat rgb.RE_COMPRESS Re.dollar) ("#"%char :: c :: l) = false.
Proof.
  intros Hc.
  change (Re.full (Re.Cat rgb.RE_COMPRESS Re.dollar) ("#"%char :: c :: l))
    with (Re.full (Re.deriv c
            (Re.deriv "#" (Re.Cat rgb.RE_COMPRESS Re.dollar))) l).
  replace (Re.deriv c (Re.deriv "#" (Re.Cat rgb.RE_COMPRESS Re.dollar)))
    with Re.Never; [apply full_Never|].
  symmetry.
  change (Re.deriv "#" (Re.Cat rgb.RE_COMPRESS Re.dollar))
    with (let hex5 := Re.word "{hex}" in
          Re.Cat (Re.Cat (Re.rep 3 (Re.Cat hex5 hex5))
                         (Re.opt (Re.Cat hex5 hex5))) Re.dollar).
  cbv zeta.
  repeat (apply deriv_cat_dead; [reflexivity|]).
  simpl. unfold not_brace in Hc. rewrite Hc. reflexivity.
Qed.

Lemma RE_COMPRESS_rejects_hex (n : Z) (rest : string) :
  rgb.RE_COMPRESS_match ("#" ++ Num.fmt_02X n ++ rest) = false.
Proof.
  unfold rgb.RE_COMPRESS_match, Re.match_anchored.
  destruct (fmt_02X_head n) as (c & l & E & Hc).
  change (Str.chars ("#" ++ Num.fmt_02X n ++ rest))
    with ("#"%char :: Str.chars (Num.fmt_02X n ++ rest)).
  rewrite chars_app, E. simpl app.
  now apply RE_COMPRESS_rejects.
Qed.

Lemma get_hex_never_compresses (self : colour) :
  rgb._get_hex self true = rgb._get_hex self false
  /\ rgb._get_hexa self true = rgb._get_hexa self false.
Proof.
  unfold rgb._get_hex, rgb._get_hexa.
  rewrite !RE_COMPRESS_rejects_hex. split; reflexivity.
Qed.

(** C1.  Parsing ["#ff0000"] does not succeed: [_split_channels] asks the
    match of [HEX_MATCH] for group 1, and that pattern has no group, so
    the call raises [IndexError].  Serialising RGB(1, 0, 0, 1) with
    [prefer_hex] and [compress] gives ["#FF0000"], not ["#f00"]: [to_css]
    does not hand [compress] on (its result is the same for both values
    of the flag), and [_get_hex] and [_get_hexa] asked to compress leave
    every colour's string as it is, since [RE_COMPRESS] looks for the
    text [{hex}]. *)
Theorem hex_parse_raises_and_hex_is_never_compressed :
  forall (H : host),
    css_color H "#ff0000" = Raise IndexError
    /\ rgb.to_css H (Colour CS_RGB 1 0 0 1)
         {| rgb.alpha := false; rgb.prefer_alpha := false;
            rgb.prefer_name := false; rgb.prefer_hex := true;
            rgb.compress := true; rgb.comma := false |}
       = Ok "#FF0000"%string
    /\ rgb._get_hex (Colour CS_RGB 1 0 0 1) true = "#FF0000"%string
    /\ (forall self,
          rgb._get_hex self true = rgb._get_hex self false
          /\ rgb._get_hexa self true = rgb._get_hexa self false)
    /\ (forall self al pa pn ph cm,
          rgb.to_css H self
            {| rgb.alpha := al; rgb.prefer_alpha := pa; rgb.prefer_name := pn;
               rgb.prefer_hex := ph; rgb.compress := true; rgb.comma := cm |}
          = rgb.to_css H self
            {| rgb.alpha := al; rgb.prefer_alpha := pa; rgb.prefer_name := pn;
               rgb.prefer_hex := ph; rgb.compress := false; rgb.comma := cm |}).
Proof.
  intros H. split; [vm_compute; reflexivity|].
  split; [vm_compute; reflexivity|].
  split; [vm_compute; reflexivity|].
  split; [apply get_hex_never_compresses | reflexivity].
Qed.

(** C8.  Parsing ["rgb(255 0 0 / 50%)"] yields RGB(1, 0, 0, 0.5), but the
    colour cannot be serialised with its alpha: [fmt_float] reads the name
    [RE_FLOAT_TRIM], which [util.py] binds as [RE_FLOAT_TRIM_RE], so it
    raises [NameError] for every number and precision, and
    [to_css(alpha=True)] raises with it. *)
Theorem rgba_parses_but_alpha_format_raises :
  forall (H : host),
    (exists c,
        css_color H "rgb(255 0 0 / 50%)" = Ok c
        /\ same_colour c (Colour CS_RGB 1 0 0 (1 # 2))
        /\ rgb.to_css H c
             {| rgb.alpha := true; rgb.prefer_alpha := false;
                rgb.prefer_name := false; rgb.prefer_hex := false;
                rgb.compress := false; rgb.comma := false |}
           = Raise (NameError "RE_FLOAT_TRIM"))
    /\ (forall f p, fmt_float f p = Raise (NameError "RE_FLOAT_TRIM")).
Proof.
  intros H. split; [|reflexivity].
  eexists. split; [vm_compute; reflexivity|].
  split; [|vm_compute; reflexivity].
  unfold same_colour. simpl. repeat split; reflexivity.
Qed.

(** ** Helpers for alpha compositing *)



(** * Facts and claims on binary64 *)

(** ** The order of binary64

    [SFcompare] is the specification of the comparisons of primitive
    floats.  Away from NaN it is the lexicographic order of a rank: the
    class of the number, then the exponent and the mantissa, negated
    below zero. *)

Section Binary64Order.
Import PrimFloat.
Local Open Scope float_scope.

Lemma SFcompare_rank (x y : spec_float) :
  x <> S754_nan -> y <> S754_nan ->
  SFcompare x y = Some (lex3 (rank x) (rank y)).
Proof.
  destruct x as [sx|sx| |sx mx ex], y as [sy|sy| |sy my ey];
    intros Hx Hy; try contradiction; simpl;
    try (destruct sx; reflexivity); try (destruct sy; reflexivity);
    try (destruct sx, sy; reflexivity).
  destruct sx, sy; try reflexivity; simpl.
  rewrite Z.compare_opp, (Z.compare_antisym ex ey).
  destruct (ex ?= ey)%Z; reflexivity.
Qed.

Lemma lex3_lt_trans (a b c : Z * Z * Z) :
  lex3 a b = Lt -> lex3 b c <> Gt -> lex3 a c = Lt.
Proof.
  destruct a as [[a1 a2] a3], b as [[b1 b2] b3], c as [[c1 c2] c3].
  unfold lex3.
  destruct (Z.compare_spec a1 b1), (Z.compare_spec b1 c1),
    (Z.compare_spec a2 b2), (Z.compare_spec b2 c2),
    (Z.compare_spec a3 b3), (Z.compare_spec b3 c3);
    intros Hab Hbc; try discriminate; try congruence;
    destruct (Z.compare_spec a1 c1); try lia;
    destruct (Z.compare_spec a2 c2); try lia;
    destruct (Z.compare_spec a3 c3); try lia; reflexivity.
Qed.

Lemma SFcompare_antisym (x y : spec_float) :
  SFcompare y x = option_map CompOpp (SFcompare x y).
Proof.
  destruct x as [sx|sx| |sx mx ex], y as [sy|sy| |sy my ey]; simpl;
    try reflexivity;
    try (destruct sx; reflexivity); try (destruct sy; reflexivity);
    try (destruct sx, sy; reflexivity).
  assert (E : Pos.compare_cont Eq my mx
               = CompOpp (Pos.compare_cont Eq mx my)).
  { now rewrite Pos.compare_cont_antisym. }
  destruct sx, sy; try reflexivity;
    rewrite (Z.compare_antisym ex ey); destruct (ex ?= ey)%Z; simpl;
      try reflexivity; rewrite E;
      destruct (Pos.compare_cont Eq mx my); reflexivity.
Qed.

Lemma number_iff (x : float) :
  F64.number x = true <-> Prim2SF x <> S754_nan.
Proof.
  unfold F64.number. rewrite eqb_spec. unfold SFeqb. split.
  - intros H E. rewrite E in H. discriminate.
  - intros H. rewrite (SFcompare_rank H H).
    destruct (rank (Prim2SF x)) as [[a b] c]. unfold lex3.
    now rewrite !Z.compare_refl.
Qed.

Lemma ltb_number (x y : float) :
  (x <? y) = true -> F64.number x = true /\ F64.number y = true.
Proof.
  rewrite !number_iff, ltb_spec. unfold SFltb.
  destruct (Prim2SF x), (Prim2SF y); simpl; intros H; try discriminate;
    split; discriminate.
Qed.

Lemma leb_number (x y : float) :
  (x <=? y) = true -> F64.number x = true /\ F64.number y = true.
Proof.
  rewrite !number_iff, leb_spec. unfold SFleb.
  destruct (Prim2SF x), (Prim2SF y); simpl; intros H; try discriminate;
    split; discriminate.
Qed.

Lemma nan_ltb_l (x y : float) : F64.number x = false -> (x <? y) = false.
Proof.
  intros Hx. destruct (x <? y) eqn:E; [|reflexivity].
  apply ltb_number in E. destruct E as [E _]. congruence.
Qed.

Lemma nan_ltb_r (x y : float) : F64.number y = false -> (x <? y) = false.
Proof.
  intros Hy. destruct (x <? y) eqn:E; [|reflexivity].
  apply ltb_number in E. destruct E as [_ E]. congruence.
Qed.

Lemma leb_not_ltb (x y : float) : (x <=? y) = true -> (y <? x) = false.
Proof.
  rewrite leb_spec, ltb_spec. unfold SFleb, SFltb.
  rewrite (SFcompare_antisym (Prim2SF x) (Prim2SF y)).
  destruct (SFcompare (Prim2SF x) (Prim2SF y)) as [[| |]|]; simpl; congruence.
Qed.

Lemma ltb_not_leb (x y : float) : (x <? y) = true -> (y <=? x) = false.
Proof.
  rewrite leb_spec, ltb_spec. unfold SFleb, SFltb.
  rewrite (SFcompare_antisym (Prim2SF x) (Prim2SF y)).
  destruct (SFcompare (Prim2SF x) (Prim2SF y)) as [[| |]|]; simpl; congruence.
Qed.

Lemma not_ltb_leb (x y : float) :
  F64.number x = true -> F64.number y = true ->
  (x <? y) = false -> (y <=? x) = true.
Proof.
  rewrite !number_iff, ltb_spec, leb_spec. unfold SFltb, SFleb.
  intros Hx Hy. rewrite (SFcompare_antisym (Prim2SF x) (Prim2SF y)).
  rewrite (SFcompare_rank Hx Hy).
  destruct (lex3 _ _); simpl; congruence.
Qed.

Lemma leb_refl (x : float) : F64.number x = true -> (x <=? x) = true.
Proof.
  intros Hx. apply not_ltb_leb; try assumption.
  destruct (x <? x) eqn:E; [|reflexivity].
  pose proof (ltb_not_leb E) as E'.
  rewrite leb_spec in E'. rewrite ltb_spec in E.
  unfold SFleb, SFltb in *.
  destruct (SFcompare (Prim2SF x) (Prim2SF x)) as [[| |]|]; congruence.
Qed.

Lemma ltb_leb_trans (x y z : float) :
  (x <? y) = true -> (y <=? z) = true -> (x <? z) = true.
Proof.
  intros Hxy Hyz.
  destruct (ltb_number Hxy) as [Nx Ny].
  destruct (leb_number Hyz) as [_ Nz].
  rewrite number_iff in Nx, Ny, Nz.
  rewrite ltb_spec in *. rewrite leb_spec in Hyz. unfold SFltb, SFleb in *.
  rewrite (SFcompare_rank Nx Ny) in Hxy.
  rewrite (SFcompare_rank Ny Nz) in Hyz.
  rewrite (SFcompare_rank Nx Nz).
  rewrite (@lex3_lt_trans (rank (Prim2SF x)) (rank (Prim2SF y))
             (rank (Prim2SF z))); [reflexivity| |].
  - destruct (lex3 (rank (Prim2SF x)) (rank (Prim2SF y))); congruence.
  - destruct (lex3 (rank (Prim2SF y)) (rank (Prim2SF z))); congruence.
Qed.

End Binary64Order.

(** ** [clamp] on binary64 *)

Section Clamp64.
Import PrimFloat.
Local Open Scope float_scope.

Lemma clamp64_nan (v mn mx : float) :
  F64.number v = false -> F64.clamp v mn mx = v.
Proof.
  intros Hv. unfold F64.clamp, F64.max, F64.min.
  rewrite (@nan_ltb_r mx v Hv), (@nan_ltb_l v mn Hv). reflexivity.
Qed.

Lemma clamp64_id (v mn mx : float) :
  (mn <=? v) = true -> (v <=? mx) = true -> F64.clamp v mn mx = v.
Proof.
  intros H1 H2. unfold F64.clamp, F64.max, F64.min.
  rewrite (leb_not_ltb H2), (leb_not_ltb H1). reflexivity.
Qed.

Lemma clamp64_high (v mn mx : float) :
  (mn <=? mx) = true -> (mx <? v) = true -> F64.clamp v mn mx = mx.
Proof.
  intros H1 H2. unfold F64.clamp, F64.max, F64.min.
  rewrite H2, (leb_not_ltb H1). reflexivity.
Qed.

Lemma clamp64_low (v mn mx : float) :
  (mn <=? mx) = true -> (v <? mn) = true -> F64.clamp v mn mx = mn.
Proof.
  intros H1 H2. unfold F64.clamp, F64.max, F64.min.
  pose proof (ltb_leb_trans H2 H1) as H3.
  assert (E : (mx <? v) = false).
  { destruct (mx <? v) eqn:E; [|reflexivity].
    pose proof (ltb_not_leb E) as E'.
    destruct (ltb_number H3) as [Nv Nx].
    rewrite ltb_spec in H3, E. unfold SFltb in *.
    rewrite (SFcompare_antisym (Prim2SF v) (Prim2SF mx)) in E.
    destruct (SFcompare (Prim2SF v) (Prim2SF mx)) as [[| |]|];
      simpl in *; congruence. }
  rewrite E, H2. reflexivity.
Qed.

Lemma clamp64_range (v mn mx : float) :
  (mn <=? mx) = true -> F64.number v = true ->
  (mn <=? F64.clamp v mn mx) = true /\ (F64.clamp v mn mx <=? mx) = true.
Proof.
  intros H1 Hv. destruct (leb_number H1) as [Nn Nx].
  unfold F64.clamp, F64.max, F64.min.
  destruct (mx <? v) eqn:E1.
  - rewrite (leb_not_ltb H1). split; [exact H1 | now apply leb_refl].
  - destruct (v <? mn) eqn:E2.
    + split; [now apply leb_refl | exact H1].
    + split; now apply not_ltb_leb.
Qed.

Lemma clamp64_unit (v : float) : F64.ranged (F64.clamp v 0 1).
Proof.
  destruct (F64.number v) eqn:Hv.
  - left. now apply clamp64_range.
  - right. now rewrite (clamp64_nan 0 1 Hv).
Qed.

End Clamp64.

(** ** Every slot holds a number of the unit interval or a NaN *)

Ltac wf64 :=
  unfold F64.wf in *; simpl in *; intuition (auto using clamp64_unit).

Lemma assign64_wf (K : color_space) (x1 x2 x3 x0 : float) :
  F64.wf (F64.assign K x1 x2 x3 x0).
Proof. wf64. Qed.

Lemma set64_c1_wf (self : F64.colour) (v : float) :
  F64.wf self -> F64.wf (F64.set_c1 self v).
Proof. wf64. Qed.

Lemma set64_c2_wf (self : F64.colour) (v : float) :
  F64.wf self -> F64.wf (F64.set_c2 self v).
Proof. wf64. Qed.

Lemma set64_c3_wf (self : F64.colour) (v : float) :
  F64.wf self -> F64.wf (F64.set_c3 self v).
Proof. wf64. Qed.

Lemma set64_c0_wf (self : F64.colour) (v : float) :
  F64.wf self -> F64.wf (F64.set_c0 self v).
Proof. wf64. Qed.

Create HintDb colour64.
#[local] Hint Resolve clamp64_unit assign64_wf set64_c1_wf set64_c2_wf
  set64_c3_wf set64_c0_wf : colour64.

Lemma unpack64_wf (K : color_space) (l : list float) (c : F64.colour) :
  F64.unpack4 K l = Ok c -> F64.cls c = K /\ F64.wf c.
Proof.
  unfold F64.unpack4. destruct l as [|x1 [|x2 [|x3 [|x0 [|]]]]]; intros E;
    inv_bind; subst; auto with colour64.
Qed.

Lemma from_string64_wf K D m s (c : F64.colour) :
  F64.from_string K D m s = Ok c -> F64.cls c = K /\ F64.wf c.
Proof.
  unfold F64.from_string. intros E. inv_bind.
  destruct a; try discriminate. eauto using unpack64_wf.
Qed.

Lemma from_sequence64_wf K l (c : F64.colour) :
  F64.from_sequence K l = Ok c -> F64.cls c = K /\ F64.wf c.
Proof.
  unfold F64.from_sequence. intros E.
  destruct (negb _); try discriminate.
  destruct l as [|x1 [|x2 [|x3 rest]]]; inv_bind; subst;
    auto with colour64.
Qed.

Lemma construct64_wf (H : F64.host) (K : color_space) (x : F64.value)
    (c : F64.colour) :
  F64.construct H K x = Ok c -> F64.cls c = K /\ F64.wf c.
Proof.
  destruct K, x as [c0| | | |]; simpl; intros E; try discriminate;
    eauto using from_string64_wf, from_sequence64_wf;
    destruct (F64.cls c0); inv_bind;
    repeat match goal with
           | E : (let '(_, _) := ?p in _) = _ |- _ => destruct p
           | p : (_ * _)%type |- _ => destruct p
           end; inv_bind; subst; auto with colour64.
Qed.

Lemma update_from64_wf (H : F64.host) (self obj c : F64.colour)
    (same : bool) :
  F64.wf self -> F64.wf obj -> F64.update_from H self same obj = Ok c ->
  F64.wf c.
Proof.
  intros Hs Ho. unfold F64.update_from. destruct same; intros E; inv_bind.
  - now subst.
  - assert (Ha : F64.wf a).
    { destruct (negb _); inv_bind; subst; auto.
      now apply (@construct64_wf H (F64.cls self) (F64.VColor obj)). }
    subst c. wf64.
Qed.

Lemma apply_alpha64_wf (H : F64.host) (self c : F64.colour)
    (bg : F64.value) :
  F64.wf self -> F64.apply_alpha H self bg = Ok c -> F64.wf c.
Proof.
  intros Hs. unfold F64.apply_alpha. intros E. inv_bind.
  destruct (PrimFloat.ltb _ _); inv_bind; subst; auto.
  unfold F64.mix_channel. wf64.
Qed.

Lemma setattr64_wf (self : F64.colour) (name : string) (v : float) :
  F64.wf self -> F64.is_public name = true ->
  F64.wf (F64.setattr self name v).
Proof.
  intros Hs Hp. unfold F64.setattr.
  repeat match goal with
         | |- context [String.eqb name (String "_" ?s)] =>
             let E := fresh "E" in
             destruct (String.eqb name (String "_" s)) eqn:E;
             [apply String.eqb_eq in E; subst name; discriminate Hp|]
         end.
  repeat match goal with
         | |- context [String.eqb ?a ?b] => destruct (String.eqb a b)
         | |- context [match F64.cls ?c with _ => _ end] =>
             destruct (F64.cls c)
         end;
    auto; unfold F64.base.set_a, F64.rgb.set_r, F64.rgb.set_g, F64.rgb.set_b,
      F64.hsl.set_h, F64.hsl.set_s, F64.hsl.set_l, F64.hwb.set_h,
      F64.hwb.set_w, F64.hwb.set_b;
    auto with colour64.
Qed.

Lemma adjust64_wf (set : F64.colour -> float -> F64.colour)
    (get : F64.colour -> float) (one : float -> float)
    (self : F64.colour) (factor : float) (op : operation) :
  (forall c v, F64.wf c -> F64.wf (set c v)) ->
  F64.wf self ->
  F64.wf (fst (F64.adjust set get one self factor op)).
Proof. intros Hset Hs. unfold F64.adjust. destruct op; simpl; auto. Qed.

Lemma hue64_wf (fuel : nat) (self c : F64.colour) (deg h : float) :
  F64.wf self -> F64.hue fuel self deg = Ok (c, h) -> F64.wf c.
Proof.
  intros Hs. unfold F64.hue. intros E. inv_bind. subst.
  auto with colour64.
Qed.

Lemma run64_wf (H : F64.host) (fuel : nat) (m : F64.mutation)
    (self self' : F64.colour) :
  F64.wf self -> F64.args_wf m -> F64.run H fuel m self = Ok self' ->
  F64.wf self'.
Proof.
  assert (Hm : forall owners name set get one f op,
             (forall c v, F64.wf c -> F64.wf (set c v)) ->
             F64.wf self ->
             F64.method self owners name
               (Ok (fst (F64.adjust set get one self f op))) = Ok self' ->
             F64.wf self').
  { intros owners name set get one f op Hset Hs E.
    unfold F64.method in E. destruct (existsb _ _); inv_bind. subst.
    now apply adjust64_wf. }
  intros Hs Hargs. destruct m; simpl in *; intros E.
  - inv_bind. subst. now apply setattr64_wf.
  - unfold F64.base.alpha in E. inv_bind; try discriminate.
  - exact (Hm _ _ _ _ _ _ _ set64_c1_wf Hs E).
  - exact (Hm _ _ _ _ _ _ _ set64_c2_wf Hs E).
  - exact (Hm _ _ _ _ _ _ _ set64_c3_wf Hs E).
  - unfold F64.method in E. destruct (existsb _ _); inv_bind.
    subst. eauto using hue64_wf.
  - exact (Hm _ _ _ _ _ _ _ set64_c2_wf Hs E).
  - exact (Hm _ _ _ _ _ _ _ set64_c3_wf Hs E).
  - exact (Hm _ _ _ _ _ _ _ set64_c2_wf Hs E).
  - exact (Hm _ _ _ _ _ _ _ set64_c3_wf Hs E).
  - assert (Hc : forall c, F64.construct H (F64.cls self) obj = Ok c ->
                        F64.update_from H self false c = Ok self' ->
                        F64.wf self').
    { intros c Ec Eu.
      exact (@update_from64_wf H self c self' false Hs
               (proj2 (@construct64_wf H _ obj c Ec)) Eu). }
    destruct obj as [c|s|l| |];
      [exact (@update_from64_wf H self c self' false Hs Hargs E)| ..].
    all: match type of E with
         | Py.bind ?m _ = _ => destruct m as [c| |] eqn:Ec; try discriminate
         end; apply (Hc c eq_refl); exact E.
  - exact (@update_from64_wf H self self self' true Hs Hs E).
  - exact (@apply_alpha64_wf H self self' background Hs E).
  - unfold F64.colorize in E. inv_bind.
    eapply update_from64_wf; [exact Hs | | exact E].
    apply set64_c1_wf.
    exact (proj2 (@construct64_wf H CS_HSL (F64.VColor self) a Ea)).
  - unfold F64.contrast in E. inv_bind; try discriminate.
  - unfold F64.invert in E. inv_bind.
    eapply update_from64_wf; [exact Hs | | exact E].
    apply set64_c3_wf, set64_c2_wf, set64_c1_wf.
    exact (proj2 (@construct64_wf H CS_RGB (F64.VColor self) a Ea)).
  - unfold F64.grayscale in E. inv_bind.
    eapply update_from64_wf; [exact Hs | | exact E].
    apply set64_c3_wf, set64_c2_wf, set64_c1_wf.
    exact (proj2 (@construct64_wf H CS_RGB (F64.VColor self) a Ea)).
  - unfold F64.sepia in E. inv_bind.
    eapply update_from64_wf; [exact Hs | | exact E].
    apply set64_c3_wf, set64_c2_wf, set64_c1_wf.
    exact (proj2 (@construct64_wf H CS_RGB (F64.VColor self) a Ea)).
  - unfold F64.brightness in E. inv_bind; try discriminate.
  - unfold F64.blend in E. inv_bind; try discriminate.
Qed.

(** ** The central invariant *)

Section Invariant.
Import PrimFloat.
Local Open Scope float_scope.

(** C2 as stated fails: a setter handed a NaN stores the NaN, and [red]
    with factor infinity on a red channel of 0 computes [0 + 0 * inf], a
    NaN again, from arguments that are numbers.  A NaN is not in
    [0, 1]. *)
Lemma setter_stores_nan :
  ~ F64.in_unit (F64.rgb.r (F64.rgb.set_r (F64.Colour CS_RGB 0 0 0 1) nan))
  /\ F64.number infinity = true
  /\ ~ F64.in_unit
        (F64.rgb.r
           (fst (F64.rgb.red (F64.Colour CS_RGB 0 0 0 1) infinity OP_ADD))).
Proof.
  split; [|split]; [|reflexivity|]; intros [H _]; vm_compute in H;
    discriminate.
Qed.

(** C2, amended.  Every property setter stores [clamp(value, 0, 1)] in its
    slot and leaves the other slots alone; [clamp(value, 0, 1)] is the
    value itself when it lies in [0, 1], 0 when it is below, 1 when it is
    above, and the NaN itself when the value is a NaN: a number of the
    unit interval for every value but a NaN.  And every public mutation,
    if it returns, leaves in each of the four slots a number of the unit
    interval or a NaN; mutations do return, with either outcome: on a red
    channel of 0.5, assigning 2 stores 1.0 and [red(0.5, OP_ADD)] stores
    0.75, while [red(inf, OP_ADD)] on a red channel of 0 stores a NaN. *)
Theorem channels_stay_in_unit_interval_or_nan :
  (forall (self : F64.colour) (v : float),
      F64.rgb.set_r self v = F64.put_c1 self (F64.clamp v 0 1)
      /\ F64.rgb.set_g self v = F64.put_c2 self (F64.clamp v 0 1)
      /\ F64.rgb.set_b self v = F64.put_c3 self (F64.clamp v 0 1)
      /\ F64.hsl.set_h self v = F64.put_c1 self (F64.clamp v 0 1)
      /\ F64.hsl.set_s self v = F64.put_c2 self (F64.clamp v 0 1)
      /\ F64.hsl.set_l self v = F64.put_c3 self (F64.clamp v 0 1)
      /\ F64.hwb.set_h self v = F64.put_c1 self (F64.clamp v 0 1)
      /\ F64.hwb.set_w self v = F64.put_c2 self (F64.clamp v 0 1)
      /\ F64.hwb.set_b self v = F64.put_c3 self (F64.clamp v 0 1)
      /\ F64.base.set_a self v
         = F64.Colour (F64.cls self) (F64._c1 self) (F64._c2 self)
                      (F64._c3 self) (F64.clamp v 0 1)
      /\ ((0 <=? v) = true -> (v <=? 1) = true -> F64.clamp v 0 1 = v)
      /\ ((v <? 0) = true -> F64.clamp v 0 1 = 0)
      /\ ((1 <? v) = true -> F64.clamp v 0 1 = 1)
      /\ (F64.number v = true -> F64.in_unit (F64.clamp v 0 1))
      /\ (F64.number v = false -> F64.clamp v 0 1 = v))
  /\ (forall (H : F64.host) (fuel : nat) (m : F64.mutation)
             (self self' : F64.colour),
        F64.wf self -> F64.args_wf m -> F64.run H fuel m self = Ok self' ->
        F64.wf self')
  /\ (forall (H : F64.host) (fuel : nat),
        F64.run H fuel (F64.SetAttr "r" 2) (F64.Colour CS_RGB 0.5 0 0 1)
        = Ok (F64.Colour CS_RGB 1 0 0 1)
        /\ F64.run H fuel (F64.Red 0.5 OP_ADD) (F64.Colour CS_RGB 0.5 0 0 1)
           = Ok (F64.Colour CS_RGB 0.75 0 0 1)
        /\ F64.run H fuel (F64.Red infinity OP_ADD) (F64.Colour CS_RGB 0 0 0 1)
           = Ok (F64.Colour CS_RGB nan 0 0 1)).
Proof.
  split; [|split].
  - intros self v. repeat (split; [reflexivity|]).
    split; [apply clamp64_id|].
    split; [now apply clamp64_low|].
    split; [now apply clamp64_high|].
    split; [now apply clamp64_range | apply clamp64_nan].
  - intros H fuel m self self'. apply run64_wf.
  - intros H fuel. repeat split; vm_compute; reflexivity.
Qed.

End Invariant.

(** ** Hue rotation *)

Section Hue64.
Import PrimFloat.
Local Open Scope float_scope.








End Hue64.

(** ** Alpha compositing of an opaque colour *)

Section Opaque64.
Import PrimFloat.
Local Open Scope float_scope.

(** The default background of each class parses, whatever the host. *)
Lemma default_background64_constructs (H : F64.host) (K : color_space) :
  exists bg, F64.construct H K (F64.VStr (F64.DEF_BG K)) = Ok bg.
Proof.
  destruct K; eexists; vm_compute; reflexivity.
Qed.

(** C9.  [apply_alpha] brings the background into the class of the colour
    before it looks at the alpha.  On a colour whose alpha is 1.0 the
    call therefore does what that conversion does: it returns the colour
    itself, its four channels as they were, when the conversion returns
    (always with no background and with a background of the colour's
    class), and raises what the conversion raises.  The conversion raises
    on backgrounds that are colours: on black of class [HWB] handed to a
    colour of another class ([hwb_to_rgb] divides by zero), and on a
    hexadecimal string handed to an [RGB] colour ([_split_channels] asks
    the match for a group it does not have). *)
Theorem apply_alpha_opaque_converts_background_first :
  forall (H : F64.host) (K : color_space) (c1 c2 c3 : float),
    let self := F64.Colour K c1 c2 c3 1 in
    (forall background,
        F64.apply_alpha H self background
        = (_ <- match background with
                | F64.VNone => F64.construct H K (F64.VStr (F64.DEF_BG K))
                | F64.VColor bg =>
                    if negb (F64.isinstance bg K)
                    then F64.construct H K background else Ok bg
                | _ => F64.construct H K background
                end ;;
           Ok self))
    /\ F64.apply_alpha H self F64.VNone = Ok self
    /\ (forall b1 b2 b3 b0,
          F64.apply_alpha H self (F64.VColor (F64.Colour K b1 b2 b3 b0))
          = Ok self)
    /\ F64.apply_alpha H (F64.Colour CS_RGB c1 c2 c3 1)
         (F64.VColor (F64.Colour CS_HWB 0 0 1 1))
       = Raise ZeroDivisionError
    /\ F64.apply_alpha H (F64.Colour CS_HSL c1 c2 c3 1)
         (F64.VColor (F64.Colour CS_HWB 0 0 1 1))
       = Raise ZeroDivisionError
    /\ F64.apply_alpha H (F64.Colour CS_RGB c1 c2 c3 1) (F64.VStr "#000000")
       = Raise IndexError.
Proof.
  intros H K c1 c2 c3 self.
  assert (Hgen : forall (K' : color_space) background,
    F64.apply_alpha H (F64.Colour K' c1 c2 c3 1) background
    = (_ <- match background with
            | F64.VNone => F64.construct H K' (F64.VStr (F64.DEF_BG K'))
            | F64.VColor bg =>
                if negb (F64.isinstance bg K')
                then F64.construct H K' background else Ok bg
            | _ => F64.construct H K' background
            end ;;
       Ok (F64.Colour K' c1 c2 c3 1))).
  { intros K' background. unfold F64.apply_alpha.
    cbn [F64.cls F64.base.a F64._c0].
    change (1 <? 1) with false.
    destruct background; reflexivity. }
  split; [exact (Hgen K)|]. split; [|split; [|split; [|split]]].
  - unfold self. rewrite Hgen.
    destruct (default_background64_constructs H K) as [bg Ebg].
    now rewrite Ebg.
  - intros b1 b2 b3 b0. unfold self. rewrite Hgen.
    unfold F64.isinstance. cbn [F64.cls].
    replace (cls_eqb K K) with true by (destruct K; reflexivity).
    reflexivity.
  - rewrite Hgen. reflexivity.
  - rewrite Hgen. reflexivity.
  - rewrite Hgen. reflexivity.
Qed.

End Opaque64.

(** * Further properties of the code *)

(** ** [util.py]: numeric helpers *)

Lemma clamp_low (v mn mx : Q) : mn <= mx -> v < mn -> clamp v mn mx = mn.
Proof. intros Hle Hlt. unfold_num. split_cmp; try reflexivity; lra. Qed.

Lemma clamp_high (v mn mx : Q) : mn <= mx -> mx < v -> clamp v mn mx = mx.
Proof. intros Hle Hgt. unfold_num. split_cmp; try reflexivity; lra. Qed.




(** ** Methods that never return *)

(** X4.  [alpha] never returns: [base.py] compares its [op] with the bare
    names [OP_SCALE], [OP_ADD] and [OP_SUB], which it has only under
    [util], so every call raises [NameError] and the colour is left as it
    was. *)
Theorem alpha_method_raises_NameError :
  forall (self : colour) (factor : Q) (op : operation),
    base.alpha self factor op = Raise (NameError "OP_SCALE").
Proof. reflexivity. Qed.

(** X5.  [contrast] never returns: once the RGB copy is built it calls
    [clamp] without the prefix [util.], a [NameError]. *)
Theorem contrast_raises_NameError :
  forall (H : host) (factor : Q),
    (forall r g b a,
        contrast H (Colour CS_RGB r g b a) factor = Raise (NameError "clamp"))
    /\ (forall self rgb,
          RGB H (VColor self) = Ok rgb ->
          contrast H self factor = Raise (NameError "clamp"))
    /\ (forall self, Py.returns (contrast H self factor) = false).
Proof.
  intros H factor. split; [reflexivity|]. split.
  - intros self rgb E. unfold contrast. rewrite E. reflexivity.
  - intros self. unfold contrast. destruct (RGB H (VColor self)); reflexivity.
Qed.

(** ** Hexadecimal and named colours cannot be parsed *)

Lemma split_channels_without_rgb (color : string) :
  Str.startswith color "rgb" = false ->
  rgb._split_channels color
  = if Re.prefix rgb.HEX_MATCH (Str.chars color)
    then Raise IndexError else Raise AssertionError.
Proof.
  intros Hrgb. unfold rgb._split_channels, rgb.HEX_MATCH_match.
  rewrite Hrgb. destruct (Re.prefix _ _); reflexivity.
Qed.

(** X7.  [_RGB._split_channels] returns channels only for a string that
    starts with [rgb]: for any other string it raises [IndexError] (the
    string starts like a hexadecimal colour) or [AssertionError] (it does
    not).  Hence [css_color] returns for no string that the RGB grammar
    accepts in another form (every hexadecimal colour, and [RGB(...)] in
    upper case), and for no colour name that the table resolves to a
    hexadecimal string. *)
Theorem hex_and_named_colours_never_parse :
  forall (H : host) (string : string),
    Str.startswith string "rgb" = false ->
    (rgb._split_channels string = Raise IndexError
     \/ rgb._split_channels string = Raise AssertionError)
    /\ (rgb.CSS_MATCH_match string = true ->
        Py.returns (css_color H string) = false)
    /\ (forall hex,
          rgb.CSS_MATCH_match string = false ->
          name2hex H string = Some hex ->
          Str.startswith hex "rgb" = false ->
          Py.returns (css_color H string) = false
          /\ Py.returns (RGB H (VStr string)) = false).
Proof.
  intros H string Hrgb.
  split; [|split].
  - rewrite (split_channels_without_rgb _ Hrgb).
    destruct (Re.prefix _ _); auto.
  - intros Hm. unfold css_color, rgb.css_match. rewrite Hm.
    rewrite (split_channels_without_rgb _ Hrgb).
    destruct (Re.prefix _ _); reflexivity.
  - intros hex Hm Hname Hhex.
    unfold css_color, RGB, from_string, rgb.css_match. simpl.
    rewrite Hm, Hname, (split_channels_without_rgb _ Hhex).
    destruct (Re.prefix _ _); split; reflexivity.
Qed.

Lemma hex_and_named_colours_never_parse_witness :
  Str.startswith "#abc" "rgb" = false
  /\ rgb.CSS_MATCH_match "#abc" = true
  /\ Py.returns (css_color red_host "#abc") = false
  /\ Str.startswith "red" "rgb" = false
  /\ rgb.CSS_MATCH_match "red" = false
  /\ name2hex red_host "red" = Some "#ff0000"%string
  /\ Py.returns (css_color red_host "red") = false.
Proof.
  assert (H1 : Str.startswith "#abc" "rgb" = false) by reflexivity.
  assert (H2 : rgb.CSS_MATCH_match "#abc" = true) by (vm_compute; reflexivity).
  assert (H3 : Str.startswith "red" "rgb" = false) by reflexivity.
  assert (H4 : rgb.CSS_MATCH_match "red" = false) by (vm_compute; reflexivity).
  assert (H5 : name2hex red_host "red" = Some "#ff0000"%string) by reflexivity.
  assert (H6 : Str.startswith "#ff0000" "rgb" = false) by reflexivity.
  split; [exact H1|]. split; [exact H2|]. split.
  { exact (proj1 (proj2 (@hex_and_named_colours_never_parse
                           red_host "#abc" H1)) H2). }
  split; [exact H3|]. split; [exact H4|]. split; [exact H5|].
  exact (proj1 (proj2 (proj2 (@hex_and_named_colours_never_parse
                                red_host "red" H3))
                 "#ff0000"%string H4 H5 H6)).
Defined.

(** ** Construction *)

Lemma unpack4_cls (K : color_space) (l : list Q) (c : colour) :
  unpack4 K l = Ok c -> cls c = K.
Proof.
  unfold unpack4. destruct l as [|x1 [|x2 [|x3 [|x0 [|]]]]]; intros E;
    inv_bind; subst; reflexivity.
Qed.

Lemma construct_cls (H : host) (K : color_space) (x : value) (c : colour) :
  construct H K x = Ok c -> cls c = K.
Proof.
  destruct K, x as [c0| | | |]; simpl; intros E; try discriminate;
    try (unfold from_string in E; inv_bind;
         match goal with
         | a : option (list Q) |- _ => destruct a; try discriminate
         end; eauto using unpack4_cls);
    try (unfold from_sequence in E; destruct (negb _); try discriminate;
         destruct l as [|x1 [|x2 [|x3 rest]]]; inv_bind; subst; reflexivity);
    destruct (cls c0); inv_bind;
    repeat match goal with
           | E : (let '(_, _) := ?p in _) = _ |- _ => destruct p
           | p : (_ * _)%type |- _ => destruct p
           end; inv_bind; subst; reflexivity.
Qed.

Lemma wf_colour_eta (c : colour) :
  wf c ->
  Colour (cls c) (clamp (_c1 c) 0 1) (clamp (_c2 c) 0 1) (clamp (_c3 c) 0 1)
         (clamp (_c0 c) 0 1) = c.
Proof.
  intros ([? ?] & [? ?] & [? ?] & [? ?]). destruct c as [K c1 c2 c3 c0].
  simpl in *. rewrite !clamp_id by assumption. reflexivity.
Qed.

Lemma copy_constructor (H : host) (c : colour) :
  wf c -> construct H (cls c) (VColor c) = Ok c.
Proof.
  intros Hwf. pose proof (wf_colour_eta Hwf) as E.
  destruct c as [K c1 c2 c3 c0]. destruct K; simpl in *;
    unfold assign; simpl; now rewrite E.
Qed.

(** X9.  A constructor handed a well-formed colour of its own class
    returns an equal colour, and [update_from] is construction in place:
    [self.update_from(obj)] leaves in [self] exactly what
    [type(self)(obj)] builds (and raises when that raises), while
    [self.update_from(self)] changes nothing. *)
Theorem update_from_is_construction :
  forall (H : host) (self obj : colour),
    wf obj ->
    construct H (cls obj) (VColor obj) = Ok obj
    /\ update_from H self false obj = construct H (cls self) (VColor obj)
    /\ update_from H self true self = Ok self.
Proof.
  intros H self obj Hwf.
  split; [now apply copy_constructor|]. split; [|reflexivity].
  unfold update_from, isinstance.
  destruct (cls_eqb (cls obj) (cls self)) eqn:Ecls; simpl.
  - assert (Hk : cls obj = cls self).
    { destruct (cls obj), (cls self); (reflexivity || discriminate). }
    rewrite <- Hk, (copy_constructor H Hwf).
    destruct Hwf as (_ & _ & _ & [? ?]).
    unfold base.set_a, set_c0, put_c1, put_c2, put_c3, base.a. simpl.
    rewrite clamp_id by assumption. destruct obj; simpl in *. now subst.
  - destruct (construct H (cls self) (VColor obj)) as [c| |] eqn:E;
      simpl; try reflexivity.
    pose proof (construct_cls _ _ _ E) as Hc.
    pose proof (construct_wf _ _ _ E) as Hw.
    pose proof (wf_colour_eta Hw) as Eta.
    destruct Hw as ([? ?] & [? ?] & [? ?] & [? ?]).
    unfold base.set_a, set_c0, put_c1, put_c2, put_c3, base.a. simpl.
    rewrite clamp_id by assumption. rewrite <- Hc.
    destruct c; reflexivity.
Qed.

Lemma update_from_is_construction_witness :
  wf (Colour CS_HSL (1 # 3) 1 (1 # 2) 1)
  /\ update_from bare_host (Colour CS_RGB 0 0 0 1) false
       (Colour CS_HSL (1 # 3) 1 (1 # 2) 1)
     = RGB bare_host (VColor (Colour CS_HSL (1 # 3) 1 (1 # 2) 1)).
Proof.
  assert (Hwf : wf (Colour CS_HSL (1 # 3) 1 (1 # 2) 1)).
  { unfold wf, in_unit. simpl. repeat split; discriminate. }
  split; [exact Hwf|].
  exact (proj1 (proj2 (update_from_is_construction bare_host
                         (Colour CS_RGB 0 0 0 1) Hwf))).
Defined.

(** X10.  A constructor handed a sequence accepts three or four numbers
    and nothing else: it clamps each number into the unit interval, takes
    alpha 1 when there are three, and raises [ValueError] for any other
    length. *)
Theorem sequence_constructor :
  forall (H : host) (K : color_space) (l : list Q),
    construct H K (VSeq l)
    = match l with
      | [x1; x2; x3] =>
          Ok (Colour K (clamp x1 0 1) (clamp x2 0 1) (clamp x3 0 1) 1)
      | [x1; x2; x3; x0] =>
          Ok (Colour K (clamp x1 0 1) (clamp x2 0 1) (clamp x3 0 1)
                     (clamp x0 0 1))
      | _ => Raise ValueError
      end.
Proof.
  intros H K l.
  assert (E : construct H K (VSeq l) = from_sequence K l)
    by (destruct K; reflexivity).
  rewrite E. unfold from_sequence, assign.
  destruct l as [|x1 [|x2 [|x3 [|x0 [|x4 rest]]]]]; try reflexivity;
    simpl; rewrite !clamp_idem; reflexivity.
Qed.

(** ** Mixing and blending channels *)

Lemma clamp_compat (x y mn mx : Q) :
  x == y -> clamp x mn mx == clamp y mn mx.
Proof.
  intros E. unfold_num. split_cmp; try reflexivity; lra.
Qed.

Lemma clamp_abs_unit (x y : Q) :
  x == y -> 0 <= y -> y <= 1 -> clamp (Qabs x) 0 1 == y.
Proof.
  intros E H0 H1.
  assert (Ea : Qabs x == y) by (rewrite E; now apply Qabs_pos).
  rewrite (clamp_compat 0 1 Ea). now rewrite clamp_id.
Qed.



(** ** The helpers of [brightness] *)


(** ** Alpha compositing *)

Lemma default_background_slots (H : host) (K : color_space) :
  exists bg,
    construct H K (VStr (DEF_BG K)) = Ok bg
    /\ _c1 bg == 0 /\ _c2 bg == 0 /\ _c3 bg == 0 /\ _c0 bg == 1.
Proof.
  destruct K; eexists; (split; [vm_compute; reflexivity|]);
    simpl; repeat split; reflexivity.
Qed.




(** X17.  With no background a translucent colour is composited over
    the default background of its class, whose three slots are 0 and
    whose alpha is 1: black for [RGB] and [HSL], and for [HWB] (hue 0, no
    whiteness, no blackness) pure red.  Each of the three slots of the
    colour, the hue of an [HSL] or [HWB] colour among them, is multiplied
    by the alpha, and the alpha becomes 1. *)
Theorem apply_alpha_over_default_background :
  forall (H : host) (self : colour),
    wf self ->
    base.a self < 1 ->
    exists r,
      apply_alpha H self VNone = Ok r
      /\ cls r = cls self
      /\ _c1 r == _c1 self * base.a self
      /\ _c2 r == _c2 self * base.a self
      /\ _c3 r == _c3 self * base.a self
      /\ base.a r = 1.
Proof.
  intros H self ([H10 H11] & [H20 H21] & [H30 H31] & [H00 H01]) Hlt.
  unfold apply_alpha.
  destruct (default_background_slots H (cls self))
    as (bg & Ebg & E1 & E2 & E3 & E0).
  rewrite Ebg. simpl. unfold Num.ltb.
  destruct (Qlt_le_dec (base.a self) 1) as [_|Hge]; [|lra].
  eexists. split; [reflexivity|]. unfold base.a in *. simpl.
  assert (Hprod : forall c, 0 <= c -> c <= 1 ->
            0 <= c * _c0 self /\ c * _c0 self <= 1).
  { intros c Hc0 Hc1. split; [apply Qmult_le_0_compat; lra|].
    apply Qle_trans with (1 * _c0 self); [|lra].
    apply Qmult_le_compat_r; lra. }
  split; [reflexivity|]. unfold mix_channel.
  repeat split; try reflexivity;
    apply clamp_abs_unit; try (now apply Hprod);
    rewrite ?E1, ?E2, ?E3, ?E0; ring.
Qed.

Lemma apply_alpha_over_default_background_witness :
  wf (Colour CS_HSL (1 # 3) 1 (1 # 2) (1 # 2))
  /\ base.a (Colour CS_HSL (1 # 3) 1 (1 # 2) (1 # 2)) < 1
  /\ exists r,
      apply_alpha bare_host (Colour CS_HSL (1 # 3) 1 (1 # 2) (1 # 2)) VNone
      = Ok r
      /\ _c2 r == 1 # 2.
Proof.
  assert (Hwf : wf (Colour CS_HSL (1 # 3) 1 (1 # 2) (1 # 2))).
  { unfold wf, in_unit. simpl. repeat split; discriminate. }
  assert (Hlt : base.a (Colour CS_HSL (1 # 3) 1 (1 # 2) (1 # 2)) < 1)
    by reflexivity.
  split; [exact Hwf|]. split; [exact Hlt|].
  destruct (@apply_alpha_over_default_background bare_host _ Hwf Hlt)
    as (r & Er & _ & _ & E2 & _).
  exists r. split; [exact Er|]. rewrite E2. reflexivity.
Defined.

(** ** Luminance and the filters built on it *)

Lemma clamp_of_integer (z top : Z) :
  (0 < top)%Z ->
  exists n : Z,
    clamp (inject_Z z) 0 (inject_Z top) = inject_Z n /\ (0 <= n <= top)%Z
    /\ (n = 0 <-> z <= 0)%Z.
Proof.
  intros Htop.
  assert (Ht : 0 <= inject_Z top)
    by (change 0 with (inject_Z 0); rewrite <- Zle_Qle; lia).
  destruct (Z_lt_le_dec z 0) as [Hneg|Hpos];
    [|destruct (Z_lt_le_dec top z) as [Hgt|Hle]].
  - exists 0%Z. rewrite clamp_low; [repeat split; try reflexivity; lia | exact Ht |].
    change 0 with (inject_Z 0). now rewrite <- Zlt_Qlt.
  - exists top. rewrite clamp_high; [repeat split; try reflexivity; lia | exact Ht |].
    now rewrite <- Zlt_Qlt.
  - exists z. rewrite clamp_id; [repeat split; try reflexivity; lia | |].
    + change 0 with (inject_Z 0). now rewrite <- Zle_Qle.
    + now rewrite <- Zle_Qle.
Qed.

(** X18.  [get_luminance] returns a whole number from 0 to 255 for every
    colour whose conversion to RGB succeeds (every RGB and HSL colour). *)
Theorem luminance_is_a_byte :
  forall (H : host) (self rgb : colour),
    RGB H (VColor self) = Ok rgb ->
    exists n : Z,
      get_luminance H self = Ok (inject_Z n) /\ (0 <= n <= 255)%Z.
Proof.
  intros H self rgb E. unfold get_luminance. rewrite E. simpl.
  match goal with
  | |- context [round_int ?x] =>
      destruct (@clamp_of_integer (round_int x) 255) as (n & En & Hn & _);
      [lia|]
  end.
  exists n. split; [|exact Hn].
  change (inject_Z 255) with 255 in En. now rewrite En.
Qed.

Lemma luminance_is_a_byte_witness :
  exists rgb n,
    RGB bare_host (VColor (Colour CS_HSL (1 # 3) 1 (1 # 2) 1)) = Ok rgb
    /\ get_luminance bare_host (Colour CS_HSL (1 # 3) 1 (1 # 2) 1)
       = Ok (inject_Z n)
    /\ (0 <= n <= 255)%Z.
Proof.
  assert (E : RGB bare_host (VColor (Colour CS_HSL (1 # 3) 1 (1 # 2) 1))
              = Ok (Colour CS_RGB (0 # 4) (2 # 2) (0 # 288) 1)).
  { vm_compute. reflexivity. }
  destruct (@luminance_is_a_byte bare_host _ _ E) as (n & En & Hn).
  exists (Colour CS_RGB (0 # 4) (2 # 2) (0 # 288) 1), n.
  split; [exact E|]. split; [exact En | exact Hn].
Defined.

(** X19.  [grayscale] assigns the luminance, a number from 0 to 255, to
    channels that the setters clamp to the unit interval: an RGB colour
    comes out black when its luminance rounds to 0 and white otherwise,
    with its alpha kept. *)
Theorem grayscale_gives_black_or_white :
  forall (H : host) (self : colour),
    cls self = CS_RGB ->
    wf self ->
    exists (n : Z) (x : Q),
      get_luminance H self = Ok (inject_Z n)
      /\ x = (if (n =? 0)%Z then 0 else 1)
      /\ grayscale H self = Ok (Colour CS_RGB x x x (_c0 self)).
Proof.
  intros H [K c1 c2 c3 c0] Hk Hwf. simpl in Hk. subst K.
  pose proof (wf_colour_eta Hwf) as Eta. simpl in Eta.
  assert (Ergb : RGB H (VColor (Colour CS_RGB c1 c2 c3 c0))
                 = Ok (Colour CS_RGB c1 c2 c3 c0)).
  { simpl. unfold assign. simpl. now rewrite Eta. }
  destruct (@luminance_is_a_byte H _ _ Ergb) as (n & En & Hn).
  exists n, (if (n =? 0)%Z then 0 else 1).
  split; [exact En|]. split; [reflexivity|].
  unfold grayscale. rewrite Ergb, En. simpl.
  assert (Ex : clamp (inject_Z n) 0 1 = if (n =? 0)%Z then 0 else 1).
  { destruct (@clamp_of_integer n 1) as (m & Em & Hm & Hz); [lia|].
    change (inject_Z 1) with 1 in Em. rewrite Em.
    destruct (Z.eqb_spec n 0) as [Hn0|Hn0].
    - assert (m = 0%Z) by lia. subst m. reflexivity.
    - assert (m = 1%Z) by lia. subst m. reflexivity. }
  unfold update_from, isinstance. simpl.
  unfold base.set_a, set_c0, put_c1, put_c2, put_c3, base.a,
    rgb.set_r, rgb.set_g, rgb.set_b, set_c1, set_c2, set_c3. simpl.
  rewrite Ex. destruct Hwf as (_ & _ & _ & [? ?]). simpl in *.
  now rewrite clamp_id.
Qed.

Lemma grayscale_gives_black_or_white_witness :
  cls (Colour CS_RGB (1 # 4) (1 # 4) (1 # 4) 1) = CS_RGB
  /\ wf (Colour CS_RGB (1 # 4) (1 # 4) (1 # 4) 1)
  /\ grayscale bare_host (Colour CS_RGB (1 # 4) (1 # 4) (1 # 4) 1)
     = Ok (Colour CS_RGB 1 1 1 1).
Proof.
  assert (Hwf : wf (Colour CS_RGB (1 # 4) (1 # 4) (1 # 4) 1)).
  { unfold wf, in_unit. simpl. repeat split; discriminate. }
  split; [reflexivity|]. split; [exact Hwf|].
  destruct (@grayscale_gives_black_or_white bare_host
              (Colour CS_RGB (1 # 4) (1 # 4) (1 # 4) 1) eq_refl Hwf)
    as (n & x & En & Ex & Eg).
  rewrite Eg. assert (Hn : n = 64%Z).
  { assert (E' : get_luminance bare_host (Colour CS_RGB (1 # 4) (1 # 4) (1 # 4) 1)
                 = Ok (inject_Z 64)) by (vm_compute; reflexivity).
    rewrite E' in En. now injection En. }
  subst n x. reflexivity.
Defined.

(** X20.  On a well-formed HSL colour [colorize] sets the hue to
    [deg/360] clamped into the unit interval (no wrapping) and keeps
    saturation, lightness and alpha. *)
Theorem colorize_sets_hue_of_hsl :
  forall (H : host) (self : colour) (deg : Q),
    cls self = CS_HSL ->
    wf self ->
    colorize H self deg
    = Ok (Colour CS_HSL (clamp (deg * HUE_SCALE) 0 1)
                 (hsl.s self) (hsl.l self) (base.a self)).
Proof.
  intros H [K c1 c2 c3 c0] deg Hk Hwf. simpl in Hk. subst K.
  destruct Hwf as (_ & [? ?] & [? ?] & [? ?]). simpl in *.
  unfold colorize, update_from, isinstance. simpl.
  unfold base.set_a, set_c0, put_c1, put_c2, put_c3, base.a, hsl.set_h,
    set_c1, hsl.s, hsl.l. simpl.
  rewrite (@clamp_id c2 0 1), (@clamp_id c3 0 1) by assumption.
  rewrite !(@clamp_id c0 0 1) by assumption. reflexivity.
Qed.

Lemma colorize_sets_hue_of_hsl_witness :
  cls (Colour CS_HSL (1 # 3) 1 (1 # 2) 1) = CS_HSL
  /\ wf (Colour CS_HSL (1 # 3) 1 (1 # 2) 1)
  /\ colorize bare_host (Colour CS_HSL (1 # 3) 1 (1 # 2) 1) 720
     = Ok (Colour CS_HSL (clamp (720 * HUE_SCALE) 0 1) 1 (1 # 2) 1).
Proof.
  assert (Hwf : wf (Colour CS_HSL (1 # 3) 1 (1 # 2) 1)).
  { unfold wf, in_unit. simpl. repeat split; discriminate. }
  split; [reflexivity|]. split; [exact Hwf|].
  exact (@colorize_sets_hue_of_hsl bare_host
           (Colour CS_HSL (1 # 3) 1 (1 # 2) 1) 720 eq_refl Hwf).
Defined.

(** ** Serialising *)


(** ** Hexadecimal output *)






(** ** The matcher accepts the language of a pattern *)

Lemma lang_never (l : list ascii) : ~ lang Re.Never l.
Proof. intros Hl. inversion Hl. Qed.












(** ** Numbers as the serialisers write them *)



(** ** Slicing and stripping *)







(** ** Splitting what the serialisers write *)










(** ** The grammar accepts what the serialisers write *)











(** ** Reading back what the serialisers write *)






















(** ** Properties on binary64 *)

Section Further64.
Import PrimFloat.
Local Open Scope float_scope.

(** X1.  [clamp] on binary64, the bounds being ordered: a number comes
    out between the bounds, unchanged when it was between them already,
    as the minimum when it was below and as the maximum when it was
    above; a NaN comes out as it went in; and clamping twice is clamping
    once. *)
Theorem clamp_binary64_bounds_and_fixpoints :
  forall v mn mx : float,
    (mn <=? mx) = true ->
    (F64.number v = true ->
     (mn <=? F64.clamp v mn mx) = true /\ (F64.clamp v mn mx <=? mx) = true)
    /\ ((mn <=? v) = true -> (v <=? mx) = true -> F64.clamp v mn mx = v)
    /\ ((v <? mn) = true -> F64.clamp v mn mx = mn)
    /\ ((mx <? v) = true -> F64.clamp v mn mx = mx)
    /\ (F64.number v = false -> F64.clamp v mn mx = v)
    /\ F64.clamp (F64.clamp v mn mx) mn mx = F64.clamp v mn mx.
Proof.
  intros v mn mx Hle.
  split; [now apply clamp64_range|].
  split; [apply clamp64_id|].
  split; [now apply clamp64_low|].
  split; [now apply clamp64_high|].
  split; [apply clamp64_nan|].
  destruct (F64.number v) eqn:Hv.
  - destruct (clamp64_range Hle Hv) as [H1 H2]. now apply clamp64_id.
  - rewrite (clamp64_nan mn mx Hv). now apply clamp64_nan.
Qed.

Lemma clamp_binary64_bounds_and_fixpoints_witness :
  F64.clamp 300 0 255 = 255 /\ F64.clamp (-0.5) 0 255 = 0
  /\ F64.clamp nan 0 255 = nan.
Proof.
  destruct (@clamp_binary64_bounds_and_fixpoints 300 0 255 eq_refl)
    as (_ & _ & _ & Hhigh & _).
  destruct (@clamp_binary64_bounds_and_fixpoints (-0.5) 0 255 eq_refl)
    as (_ & _ & Hlow & _).
  destruct (@clamp_binary64_bounds_and_fixpoints nan 0 255 eq_refl)
    as (_ & _ & _ & _ & Hnan & _).
  split; [exact (Hhigh eq_refl)|]. split; [exact (Hlow eq_refl)|].
  exact (Hnan eq_refl).
Defined.

(** X8.  Whatever a constructor is given (a colour of any class, a
    string, a sequence), the colour it returns, if it returns one, is of
    the class asked for and holds in each slot a number of the unit
    interval or a NaN; so does every colour [css_color] returns.  A
    sequence of numbers (none of them a NaN) gives four numbers of the
    unit interval: [RGB([2.0, 0.5, -1.0])] is the colour (1, 0.5, 0, 1),
    and a NaN handed in a sequence is stored. *)
Theorem constructed_colours_are_ranged :
  forall (H : F64.host),
    (forall K x c, F64.construct H K x = Ok c -> F64.cls c = K /\ F64.wf c)
    /\ (forall string c, F64.css_color H string = Ok c -> F64.wf c)
    /\ (forall K l c,
          Forall (fun x => F64.number x = true) l ->
          F64.construct H K (F64.VSeq l) = Ok c ->
          F64.in_unit (F64._c1 c) /\ F64.in_unit (F64._c2 c)
          /\ F64.in_unit (F64._c3 c) /\ F64.in_unit (F64._c0 c))
    /\ F64.construct H CS_RGB (F64.VSeq [2; 0.5; -1])
       = Ok (F64.Colour CS_RGB 1 0.5 0 1)
    /\ F64.construct H CS_RGB (F64.VSeq [nan; 0.5; 0; 1])
       = Ok (F64.Colour CS_RGB nan 0.5 0 1).
Proof.
  intros H. split; [|split; [|split; [|split]]];
    [| | |vm_compute; reflexivity|vm_compute; reflexivity].
  - intros K x c. apply construct64_wf.
  - intros string c E. unfold F64.css_color in E. inv_bind.
    destruct a as [l|].
    + exact (proj2 (@construct64_wf H CS_RGB (F64.VSeq l) c E)).
    + inv_bind. destruct a as [l|].
      * exact (proj2 (@construct64_wf H CS_HSL (F64.VSeq l) c E)).
      * inv_bind. destruct a as [l|]; [|discriminate].
        exact (proj2 (@construct64_wf H CS_HWB (F64.VSeq l) c E)).
  - intros K l c Hl E.
    assert (Hu : forall x, F64.number x = true ->
                   F64.in_unit (F64.clamp (F64.clamp x 0 1) 0 1)).
    { intros x Hx. destruct (@clamp64_range x 0 1 eq_refl Hx) as [H0 H1].
      rewrite (clamp64_id H0 H1). now split. }
    assert (Es : F64.from_sequence K l = Ok c) by (destruct K; exact E).
    unfold F64.from_sequence in Es. destruct (negb _); [discriminate|].
    destruct l as [|x1 [|x2 [|x3 rest]]]; try discriminate.
    inversion Hl as [|? ? N1 Hl1]; subst.
    inversion Hl1 as [|? ? N2 Hl2]; subst.
    inversion Hl2 as [|? ? N3 Hl3]; subst.
    injection Es as Es. subst c. simpl.
    repeat (split; [now apply Hu|]).
    destruct rest as [|x0 rest].
    + split; reflexivity.
    + inversion Hl3; subst. now apply Hu.
Qed.

End Further64.

Section Overage64.
Import PrimFloat.
Local Open Scope float_scope.

(** X15.  [_distribute_overage] never raises.  It hands [o / len(s)] to
    channels still open: with one open channel that channel receives the
    whole overage, with two each receives a half, and with none the
    components are returned as they are, the overage dropped.  Handed all
    three names it gives a third to red and to green and nothing to
    blue. *)
Theorem distribute_overage_shares :
  forall (c0 c1 c2 o : float) (kr kg kb : bool),
    F64._distribute_overage (c0, c1, c2) o (slots_kept kr kg kb)
    = Ok (match kr, kg, kb with
          | true, true, true => (c0 + o / 3, c1 + o / 3, c2)
          | true, true, false => (c0 + o / 2, c1 + o / 2, c2)
          | true, false, true => (c0 + o / 2, c1, c2 + o / 2)
          | false, true, true => (c0, c1 + o / 2, c2 + o / 2)
          | true, false, false => (c0 + o / 1, c1, c2)
          | false, true, false => (c0, c1 + o / 1, c2)
          | false, false, true => (c0, c1, c2 + o / 1)
          | false, false, false => (c0, c1, c2)
          end).
Proof.
  intros c0 c1 c2 o kr kg kb. destruct kr, kg, kb; reflexivity.
Qed.

End Overage64.
